(** * assemble_character.py: the incremental build pipeline

    A shallow embedding of [model_pipeline/assemble_character.py]: the build
    manifest, the gathering of a model's current state (source time stamp,
    configuration, resolved animation files), the staleness test
    [needs_update], the per-model pipeline [process_model] and the top-level
    batch loop.

    What Blender does to its scene is outside the model.  Every [bpy] call
    of the script is kept at its place in the control flow, and its effect
    on the script is reduced to whether it returns or raises and, inside
    the animation loop, to whether the imported file gave an action (so
    that [fix_arm_spacing] is called and prints its line); an oracle
    decides these per model file.  [fix_arm_spacing] itself is modelled
    apart, over the names of the pose bones, as the sequence of its calls.  The manifest file is read and written
    without loss ([json.dump] followed by [json.load] gives the dictionary
    back); errors of writing it, and the check of line 13 that the [.blend]
    file is saved, are not modelled. *)

From stdpp Require Import gmap strings list fin_maps.
From Stdlib Require Import ZArith Ascii String.

Local Open Scope string_scope.

(** ** Values

    Time stamps ([os.path.getmtime]) and the arm angle are Python numbers
    that the script only ever compares with [!=]; they are modelled by [Z]
    (a count of clock ticks, whole degrees).  A time stamp of [0] is what
    [get_file_timestamp] returns for a missing file. *)

(** A model configuration, a value of [MODEL_CONFIG].  The script reads it
    with [config.get(key, default)], so a key may be missing. *)
Record Config := mkConfig {
  gender : option string;
  extra_arm_angle : option Z
}.

(** One resolved animation, as [process_model] writes it:
    [{"file": ..., "mtime": ...}]. *)
Record AnimInfo := mkAnimInfo {
  file : string;
  mtime : Z
}.

(** The dictionary [current_state] that [process_model] builds.  Its
    ["animations"] dictionary keeps insertion order, which is the order in
    which [needs_update] walks it. *)
Record State := mkState {
  build_date : string;
  source_file : string;
  source_mtime : Z;
  config : Config;
  animations : list (string * AnimInfo)
}.

(** An entry of the manifest as [needs_update] looks at it: a dictionary
    read with [.get], where any key may be missing. *)
Record AnimEntry := mkAnimEntry {
  last_file : option string;
  last_mtime : option Z
}.

Record Entry := mkEntry {
  last_build_date : option string;
  last_source_file : option string;
  last_source_mtime : option Z;
  last_config : option Config;
  last_animations : option (gmap string AnimEntry)
}.

#[global] Instance Config_eq_dec : EqDecision Config.
Proof. solve_decision. Defined.
#[global] Instance AnimInfo_eq_dec : EqDecision AnimInfo.
Proof. solve_decision. Defined.
#[global] Instance State_eq_dec : EqDecision State.
Proof. solve_decision. Defined.
#[global] Instance AnimEntry_eq_dec : EqDecision AnimEntry.
Proof. solve_decision. Defined.
#[global] Instance Entry_eq_dec : EqDecision Entry.
Proof. solve_decision. Defined.

(** ** Insertion-ordered dictionaries

    [d[k] = v] on a Python dictionary: an existing key keeps its place, a new
    key goes to the end. *)

Fixpoint dict_get {V} (d : list (string * V)) (k : string) : option V :=
  match d with
  | [] => None
  | (k', v) :: rest => if decide (k' = k) then Some v else dict_get rest k
  end.

Fixpoint dict_set {V} (d : list (string * V)) (k : string) (v : V)
  : list (string * V) :=
  match d with
  | [] => [(k, v)]
  | (k', v') :: rest =>
      if decide (k' = k) then (k, v) :: rest else (k', v') :: dict_set rest k v
  end.

(** What a state looks like once it sits in the manifest. *)
Definition stored_anim (a : AnimInfo) : AnimEntry :=
  {| last_file := Some (file a); last_mtime := Some (mtime a) |}.

Definition stored_animations (d : list (string * AnimInfo))
  : gmap string AnimEntry :=
  foldl (fun m kv => <[kv.1 := stored_anim kv.2]> m) ∅ d.

Definition stored (s : State) : Entry :=
  {| last_build_date := Some (build_date s);
     last_source_file := Some (source_file s);
     last_source_mtime := Some (source_mtime s);
     last_config := Some (config s);
     last_animations := Some (stored_animations (animations s)) |}.

(** ** Configuration (lines 27-52) *)

Definition DEFAULT_CONFIG : Config :=
  {| gender := Some "M"; extra_arm_angle := Some 0%Z |}.

Definition MODEL_CONFIG : list (string * Config) :=
  [ ("leib",    {| gender := Some "M"; extra_arm_angle := Some 0%Z |});
    ("katinka", {| gender := Some "F"; extra_arm_angle := Some 0%Z |});
    ("marco",   {| gender := Some "M"; extra_arm_angle := Some 7%Z |}) ].

Definition ANIMATION_TARGETS : list (string * string) :=
  [ ("idle", "idle.fbx");
    ("walk", "walk.fbx");
    ("run", "run.fbx");
    ("jump_up", "jump_up.fbx");
    ("falling_idle", "falling_idle.fbx");
    ("landing", "falling_to_idle.fbx");
    ("walk_backwards", "walk_backwards.fbx");
    ("strafe_left", "strafe_left.fbx");
    ("strafe_right", "strafe_right.fbx");
    ("glide", "glide.fbx");
    ("cast", "cast.fbx") ].

(** ** File names

    [str.lower] and [str.endswith] on the bytes of a name (only ASCII
    letters change case), and [os.path.splitext] on a name without
    directory separators: the extension starts at the last dot, unless only
    dots come before it. *)

Definition lower_ascii (c : ascii) : ascii :=
  let n := nat_of_ascii c in
  if (65 <=? n)%nat && (n <=? 90)%nat then ascii_of_nat (n + 32) else c.

Fixpoint lower (s : string) : string :=
  match s with
  | EmptyString => EmptyString
  | String c rest => String (lower_ascii c) (lower rest)
  end.

Definition endswith (s suffix : string) : bool :=
  let n := String.length s in
  let k := String.length suffix in
  (k <=? n)%nat && String.eqb (substring (n - k) k s) suffix.

(** Index of the last dot of [s], counted from [i]. *)
Fixpoint rfind_dot (s : string) (i : nat) : option nat :=
  match s with
  | EmptyString => None
  | String c rest =>
      match rfind_dot rest (S i) with
      | Some j => Some j
      | None => if Ascii.eqb c "." then Some i else None
      end
  end.

Fixpoint all_dots (s : string) : bool :=
  match s with
  | EmptyString => true
  | String c rest => Ascii.eqb c "." && all_dots rest
  end.

Definition splitext (p : string) : string * string :=
  match rfind_dot p 0 with
  | None => (p, "")
  | Some i =>
      if all_dots (substring 0 i p) then (p, "")
      else (substring 0 i p, substring i (String.length p - i) p)
  end.

(** ** The file system

    The three places the script looks at: the model directory (its entries in
    the order [os.listdir] gives them, each with its time stamp; [None] when
    the directory is missing), the animation library (name to time stamp) and
    whether the export directory exists. *)

Record FS := mkFS {
  source_dir : option (list (string * Z));
  anim_dir : gmap string Z;
  raw_assets_dir : bool
}.

(** [os.path.join(SOURCE_DIR, name)] and [os.path.join(ANIM_DIR, name)]. *)
Inductive Path :=
| InSourceDir (name : string)
| InAnimDir (name : string).

Definition basename (p : Path) : string :=
  match p with
  | InSourceDir name => name
  | InAnimDir name => name
  end.

Definition getmtime (fs : FS) (p : Path) : option Z :=
  match p with
  | InSourceDir name => d ← source_dir fs; dict_get d name
  | InAnimDir name => anim_dir fs !! name
  end.

Definition path_exists (fs : FS) (p : Path) : bool :=
  bool_decide (is_Some (getmtime fs p)).

(** ** Helper functions (lines 58-61, 138-180) *)

Definition get_file_timestamp (fs : FS) (filepath : Path) : Z :=
  if negb (path_exists fs filepath) then 0%Z
  else default 0%Z (getmtime fs filepath).

Definition find_animation_file (fs : FS) (base_filename gender : string)
  : option Path :=
  let target_file := gender ++ "_" ++ base_filename in
  let path := InAnimDir target_file in
  if path_exists fs path then Some path
  else
    if decide (gender = "F") then
      let fallback_file := "M_" ++ base_filename in
      let fallback_path := InAnimDir fallback_file in
      if path_exists fs fallback_path then Some fallback_path else None
    else None.

(** What the script prints, one constructor per [print] call. *)
Inductive Line :=
| SourceModelChanged
| ConfigurationChanged
| NewAnimationAdded (anim_name : string)
| AnimationFileChanged (anim_name : string)
| Skipping (model_name : string)
| Building (model_name : string)
| CouldNotImport (e : string)
| NoArmatureFound
| FixArms (angle : Z) (action_name : string)
| Added (target_name : string)
| ErrorProcessing (target_name : string) (e : string)
| RepoDirectoryMissing
| Exported (model_name : string)
| StartPipeline
| NoModelsFound
| ManifestUpdated
| EverythingUpToDate
| Done
| SourceDirNotFound.

#[global] Instance Line_eq_dec : EqDecision Line.
Proof. solve_decision. Defined.

(** [last_build.get('animations', {})]. *)
Definition animations_of (last_build : Entry) : gmap string AnimEntry :=
  default ∅ (last_animations last_build).

(** The loop of lines 170-178 over [current_state['animations'].items()]. *)
Fixpoint check_animations (items : list (string * AnimInfo))
    (last_build : Entry) : list Line * bool :=
  match items with
  | [] => ([], false)
  | (anim_name, anim_data) :: rest =>
      match animations_of last_build !! anim_name with
      | None => ([NewAnimationAdded anim_name], true)
      | Some last_anim =>
          let last_anim_mtime := last_mtime last_anim in
          if decide (Some (mtime anim_data) ≠ last_anim_mtime)
          then ([AnimationFileChanged anim_name], true)
          else check_animations rest last_build
      end
  end.

(** [needs_update]: what it prints and what it returns.  [FORCE_REBUILD] is
    the module constant of line 28, taken as a parameter so that both of its
    settings are covered. *)
Definition needs_update (FORCE_REBUILD : bool) (model_name : string)
    (current_state : State) (manifest : gmap string Entry)
  : list Line * bool :=
  if FORCE_REBUILD then ([], true)
  else
    match manifest !! model_name with
    | None => ([], true)
    | Some last_build =>
        if decide (Some (source_mtime current_state)
                   ≠ last_source_mtime last_build)
        then ([SourceModelChanged], true)
        else if decide (Some (config current_state) ≠ last_config last_build)
        then ([ConfigurationChanged], true)
        else check_animations (animations current_state) last_build
    end.

(** ** Phase 1 of [process_model]: gathering the current state
    (lines 188-213) *)

(** The loop of lines 207-213 over [ANIMATION_TARGETS.items()]. *)
Fixpoint resolve_animations (fs : FS) (gender : string)
    (targets : list (string * string)) (acc : list (string * AnimInfo))
  : list (string * AnimInfo) :=
  match targets with
  | [] => acc
  | (target_name, base_filename) :: rest =>
      match find_animation_file fs base_filename gender with
      | Some anim_path =>
          resolve_animations fs gender rest
            (dict_set acc target_name
               {| file := basename anim_path;
                  mtime := get_file_timestamp fs anim_path |})
      | None => resolve_animations fs gender rest acc
      end
  end.

Definition config_of (model_name : string) : Config :=
  default DEFAULT_CONFIG (dict_get MODEL_CONFIG model_name).

Definition gender_of (config : Config) : string :=
  default "M" (gender config).

(** [now] is the string [datetime.now().strftime(...)] yields at the call. *)
Definition gather_current_state (fs : FS) (now : string) (filename : string)
  : State :=
  let model_path := InSourceDir filename in
  let model_name := (splitext filename).1 in
  let config := config_of model_name in
  let gender := gender_of config in
  {| build_date := now;
     source_file := filename;
     source_mtime := get_file_timestamp fs model_path;
     config := config;
     animations := resolve_animations fs gender ANIMATION_TARGETS [] |}.

(** ** Effects

    The script mutates the dictionary [manifest], prints, writes the manifest
    file and may be left by an exception.  A computation takes the world and
    gives what it printed, how it ended and the world it leaves; an exception
    keeps what was printed and changed before it. *)

Inductive LogFile :=
| NoLogFile
| UnreadableLogFile
| LogFileWith (data : gmap string Entry).

Record World := mkWorld {
  manifest : gmap string Entry;     (* the dictionary bound to [manifest] *)
  build_log_file : LogFile;         (* BUILD_LOG_FILE on disk *)
  saves : nat                       (* calls of [save_manifest] so far *)
}.

Inductive Res (A : Type) :=
| Ret (a : A)
| Raise (e : string).
Arguments Ret {A} a.
Arguments Raise {A} e.

Record Out (A : Type) := mkOut {
  printed : list Line;
  result : Res A;
  world : World
}.
Arguments mkOut {A} printed result world.
Arguments printed {A} o.
Arguments result {A} o.
Arguments world {A} o.

Definition M (A : Type) : Type := World → Out A.

Definition ret {A} (a : A) : M A := fun w => mkOut [] (Ret a) w.

Definition raise {A} (e : string) : M A := fun w => mkOut [] (Raise e) w.

Definition bind {A B} (m : M A) (k : A → M B) : M B := fun w =>
  let o := m w in
  match result o with
  | Ret a =>
      let o' := k a (world o) in
      mkOut (printed o ++ printed o') (result o') (world o')
  | Raise e => mkOut (printed o) (Raise e) (world o)
  end.

(** [try: m  except Exception as e: handler e]. *)
Definition try_except {A} (m : M A) (handler : string → M A) : M A := fun w =>
  let o := m w in
  match result o with
  | Ret a => o
  | Raise e =>
      let o' := handler e (world o) in
      mkOut (printed o ++ printed o') (result o') (world o')
  end.

#[global] Instance M_ret : MRet M := @ret.
#[global] Instance M_bind : MBind M := fun A B k m => bind m k.

Definition print (l : Line) : M unit := fun w => mkOut [l] (Ret tt) w.

(** A function that only prints and returns. *)
Definition say {A} (p : list Line * A) : M A := fun w => mkOut p.1 (Ret p.2) w.

Definition get_manifest : M (gmap string Entry) := fun w =>
  mkOut [] (Ret (manifest w)) w.

(** [manifest = data] at top level. *)
Definition bind_manifest (data : gmap string Entry) : M unit := fun w =>
  mkOut [] (Ret tt)
    {| manifest := data; build_log_file := build_log_file w; saves := saves w |}.

(** [manifest[model_name] = current_state]. *)
Definition manifest_set (model_name : string) (current_state : State)
  : M unit := fun w =>
  mkOut [] (Ret tt)
    {| manifest := <[model_name := stored current_state]> (manifest w);
       build_log_file := build_log_file w;
       saves := saves w |}.

(** Lines 63-76. *)
Definition load_manifest : M (gmap string Entry) := fun w =>
  match build_log_file w with
  | LogFileWith data => mkOut [] (Ret data) w
  | UnreadableLogFile => mkOut [] (Ret ∅) w
  | NoLogFile => mkOut [] (Ret ∅) w
  end.

Definition save_manifest (data : gmap string Entry) : M unit := fun w =>
  mkOut [] (Ret tt)
    {| manifest := manifest w;
       build_log_file := LogFileWith data;
       saves := S (saves w) |}.

(** ** Blender

    How the [bpy] calls made for one model end: [None] when the call
    returns, [Some e] when it raises [e].  For the body of the [try] of
    lines 256-273, run once per animation, Blender decides two things:
    whether the body raises ([attach_raises]), and whether the imported
    file gave an armature with an action, so that line 265 is reached
    before that: [fix_arms_action] is then [Some name], where [name] is
    the [action.name] that [fix_arm_spacing] prints on line 120. *)
Record EngineRun := mkEngineRun {
  clean_scene_raises : option string;        (* line 221 *)
  import_fbx_raises : option string;         (* line 227 *)
  import_gltf_raises : option string;        (* line 229 *)
  armature_found : bool;                     (* line 234 *)
  rig_setup_raises : option string;          (* lines 241-246 *)
  attach_raises : string → option Path → Z → option string;
                                             (* lines 256-273, one animation *)
  fix_arms_action : string → option Path → Z → option string;
                                             (* lines 260-266, one animation *)
  export_raises : option string              (* lines 284-287 *)
}.

(** The surroundings of a batch: Blender's answers and the wall clock for
    each model file, and the last [clean_scene()] of line 311. *)
Record Host := mkHost {
  engine : string → EngineRun;
  clock : string → string;
  final_clean_scene_raises : option string
}.

Definition bpy (answer : option string) : M unit :=
  match answer with
  | None => ret tt
  | Some e => raise e
  end.

(** What lines 260-266 print: when the imported armature has an action and
    the configured angle is positive, [fix_arm_spacing] is called and, for
    an angle other than [0], prints its line before it touches the bones. *)
Definition print_fix_arms (run : EngineRun) (target_name : string)
    (anim_path : option Path) (extra_angle : Z) : M unit :=
  match fix_arms_action run target_name anim_path extra_angle with
  | Some action_name =>
      if (0 <? extra_angle)%Z then
        if decide (extra_angle = 0%Z) then ret tt
        else print (FixArms extra_angle action_name)
      else ret tt
  | None => ret tt
  end.

(** ** The pipeline (lines 186-292) *)

Section Pipeline.

Variable FORCE_REBUILD : bool.
Variable fs : FS.
Variable host : Host.

(** Lines 249-276. *)
Fixpoint attach_animations (run : EngineRun) (gender : string)
    (extra_angle : Z) (items : list (string * AnimInfo)) : M unit :=
  match items with
  | [] => ret tt
  | (target_name, anim_info) :: rest =>
      match dict_get ANIMATION_TARGETS target_name with
      | None => raise "KeyError"
      | Some base_filename =>
          let anim_path := find_animation_file fs base_filename gender in
          try_except
            (print_fix_arms run target_name anim_path extra_angle;;
             bpy (attach_raises run target_name anim_path extra_angle);;
             print (Added target_name))
            (fun e => print (ErrorProcessing target_name e));;
          attach_animations run gender extra_angle rest
      end
  end.

(** Phase 3 and the commit, lines 220-292: everything after the staleness
    test. *)
Definition build (filename model_name : string) (config : Config)
    (gender : string) (current_state : State) : M bool :=
  let run := engine host filename in
  print (Building model_name);;
  bpy (clean_scene_raises run);;
  let extra_angle := default 0%Z (extra_arm_angle config) in
  imported ←
    try_except
      ((if endswith (lower filename) ".fbx" then bpy (import_fbx_raises run)
        else if endswith (lower filename) ".glb"
             then bpy (import_gltf_raises run)
             else ret tt);;
       ret true)
      (fun e => print (CouldNotImport e);; ret false);
  if negb imported then ret false
  else
    if negb (armature_found run) then print NoArmatureFound;; ret false
    else
      bpy (rig_setup_raises run);;
      attach_animations run gender extra_angle (animations current_state);;
      if negb (raw_assets_dir fs) then print RepoDirectoryMissing;; ret false
      else
        bpy (export_raises run);;
        print (Exported model_name);;
        manifest_set model_name current_state;;
        ret true.

Definition process_model (filename : string) : M bool :=
  let model_name := (splitext filename).1 in
  let config := config_of model_name in
  let gender := gender_of config in
  let current_state :=
    gather_current_state fs (clock host filename) filename in
  manifest ← get_manifest;
  stale ← say (needs_update FORCE_REBUILD model_name current_state manifest);
  if negb stale then print (Skipping model_name);; ret false
  else build filename model_name config gender current_state.

(** ** The batch (lines 297-321) *)

(** The loop of lines 306-308. *)
Fixpoint process_all (files : list string) (updates_made : bool) : M bool :=
  match files with
  | [] => ret updates_made
  | f :: rest =>
      updated ← process_model f;
      process_all rest (if updated : bool then true else updates_made)
  end.

Definition is_model_file (f : string) : bool :=
  endswith (lower f) ".fbx" || endswith (lower f) ".glb".

Definition run_batch : M unit :=
  print StartPipeline;;
  data ← load_manifest;
  bind_manifest data;;
  match source_dir fs with
  | Some entries =>
      let files := filter (fun f => is_model_file f = true) (entries.*1) in
      match files with
      | [] => print NoModelsFound
      | _ :: _ =>
          updates_made ← process_all files false;
          bpy (final_clean_scene_raises host);;
          (if updates_made : bool
           then data ← get_manifest;
                save_manifest data;;
                print ManifestUpdated
           else print EverythingUpToDate);;
          print Done
      end
  | None => print SourceDirNotFound
  end.

End Pipeline.

(** ** Vocabulary of the statements *)

(** An animation of the current state that the loop of [needs_update] stops
    at: its slot is missing from the stored entry, or stored with another
    time stamp. *)
Definition slot_stale (last_build : Entry) (anim_name : string)
    (anim_data : AnimInfo) : Prop :=
  animations_of last_build !! anim_name = None
  ∨ ∃ last_anim, animations_of last_build !! anim_name = Some last_anim
                 ∧ Some (mtime anim_data) ≠ last_mtime last_anim.

(** What the loop of lines 207-213 adds for one row of the table. *)
Definition resolve_one (fs : FS) (gender : string) (row : string * string)
  : option (string * AnimInfo) :=
  anim_path ← find_animation_file fs row.2 gender;
  Some (row.1, {| file := basename anim_path;
                  mtime := get_file_timestamp fs anim_path |}).

(** Is [name] a file of the animation library? *)
Definition in_library (fs : FS) (name : string) : Prop :=
  is_Some (anim_dir fs !! name).

(** The same state with another build date. *)
Definition with_build_date (now : string) (s : State) : State :=
  {| build_date := now;
     source_file := source_file s;
     source_mtime := source_mtime s;
     config := config s;
     animations := animations s |}.

(** The stored entry with one more animation recorded under [anim_name]. *)
Definition with_animation (anim_name : string) (old : AnimEntry)
    (last_build : Entry) : Entry :=
  {| last_build_date := last_build_date last_build;
     last_source_file := last_source_file last_build;
     last_source_mtime := last_source_mtime last_build;
     last_config := last_config last_build;
     last_animations := Some (<[anim_name := old]> (animations_of last_build)) |}.

(** The stored entry with the file name of every animation replaced. *)
Definition with_last_files (rename : string → option string)
    (last_build : Entry) : Entry :=
  {| last_build_date := last_build_date last_build;
     last_source_file := last_source_file last_build;
     last_source_mtime := last_source_mtime last_build;
     last_config := last_config last_build;
     last_animations :=
       match last_animations last_build with
       | Some anims =>
           Some (map_imap (λ k a, Some {| last_file := rename k;
                                          last_mtime := last_mtime a |})
                   anims)
       | None => None
       end |}.

(** ** Sample surroundings

    A model directory with the three configured characters, and animation
    libraries that differ in the files for the slots [walk] and [cast]. *)

Definition sample_models : list (string * Z) :=
  [("leib.fbx", 100%Z); ("katinka.glb", 200%Z); ("marco.FBX", 300%Z)].

(** Only clips authored for [M]. *)
Definition fs_male_library : FS :=
  {| source_dir := Some sample_models;
     anim_dir := {[ "M_walk.fbx" := 5%Z; "M_cast.fbx" := 7%Z ]};
     raw_assets_dir := true |}.

(** The same, with a clip for [F] that has the time stamp of [M_walk.fbx]. *)
Definition fs_female_walk : FS :=
  {| source_dir := Some sample_models;
     anim_dir := {[ "M_walk.fbx" := 5%Z; "M_cast.fbx" := 7%Z;
                    "F_walk.fbx" := 5%Z ]};
     raw_assets_dir := true |}.

(** [M_cast.fbx] deleted. *)
Definition fs_cast_removed : FS :=
  {| source_dir := Some sample_models;
     anim_dir := {[ "M_walk.fbx" := 5%Z ]};
     raw_assets_dir := true |}.

(** An empty animation library. *)
Definition fs_no_library : FS :=
  {| source_dir := Some sample_models;
     anim_dir := ∅;
     raw_assets_dir := true |}.

(** ** Summary of one build

    The same control flow as [build], read off Blender's answers: which
    import call is made, what the animation loop prints, and how the build
    ends. *)

(** The answer of the import call of lines 226-229, if one is made. *)
Definition import_answer (run : EngineRun) (filename : string)
  : option string :=
  if endswith (lower filename) ".fbx" then import_fbx_raises run
  else if endswith (lower filename) ".glb" then import_gltf_raises run
  else None.

(** The line of [fix_arm_spacing], if lines 260-266 print it. *)
Definition fix_arms_lines (run : EngineRun) (target_name : string)
    (anim_path : option Path) (extra_angle : Z) : list Line :=
  match fix_arms_action run target_name anim_path extra_angle with
  | Some action_name =>
      if (0 <? extra_angle)%Z then
        if decide (extra_angle = 0%Z) then []
        else [FixArms extra_angle action_name]
      else []
  | None => []
  end.

(** What the loop of lines 249-276 prints for slots of the table. *)
Definition attach_lines (fs : FS) (run : EngineRun) (gender : string)
    (extra_angle : Z) (items : list (string * AnimInfo)) : list Line :=
  flat_map
    (λ item,
       match dict_get ANIMATION_TARGETS item.1 with
       | Some base_filename =>
           (fix_arms_lines run item.1
              (find_animation_file fs base_filename gender) extra_angle
            ++ match attach_raises run item.1
                       (find_animation_file fs base_filename gender)
                       extra_angle
               with
               | None => [Added item.1]
               | Some e => [ErrorProcessing item.1 e]
               end)%list
       | None => []
       end)
    items.

(** The world after [manifest[model_name] = current_state]. *)
Definition commit (model_name : string) (current_state : State) (w : World)
  : World :=
  {| manifest := <[model_name := stored current_state]> (manifest w);
     build_log_file := build_log_file w;
     saves := saves w |}.

(** What [build] prints and how it ends. *)
Definition build_summary (fs : FS) (host : Host) (filename model_name : string)
    (config : Config) (gender : string) (current_state : State)
  : list Line * Res bool :=
  let run := engine host filename in
  let extra_angle := default 0%Z (extra_arm_angle config) in
  let attached :=
    attach_lines fs run gender extra_angle (animations current_state) in
  match clean_scene_raises run with
  | Some e => ([Building model_name], Raise e)
  | None =>
      match import_answer run filename with
      | Some e => ([Building model_name; CouldNotImport e], Ret false)
      | None =>
          if negb (armature_found run)
          then ([Building model_name; NoArmatureFound], Ret false)
          else
            match rig_setup_raises run with
            | Some e => ([Building model_name], Raise e)
            | None =>
                if negb (raw_assets_dir fs)
                then (Building model_name :: attached ++ [RepoDirectoryMissing],
                      Ret false)
                else
                  match export_raises run with
                  | Some e => (Building model_name :: attached, Raise e)
                  | None =>
                      (Building model_name :: attached ++ [Exported model_name],
                       Ret true)
                  end
            end
      end
  end.

(** The world a computation leaves when it ends with [r]: the manifest entry
    is written exactly when it returns [True]. *)
Definition world_after (model_name : string) (current_state : State)
    (r : Res bool) (w : World) : World :=
  match r with
  | Ret true => commit model_name current_state w
  | _ => w
  end.

(** ** Summary of one call of [process_model] *)

Definition model_name_of (filename : string) : string := (splitext filename).1.

(** The state [process_model] gathers for [filename]. *)
Definition state_of (fs : FS) (host : Host) (filename : string) : State :=
  gather_current_state fs (clock host filename) filename.

(** What [process_model] prints and how it ends, given the manifest. *)
Definition process_summary (FORCE_REBUILD : bool) (fs : FS) (host : Host)
    (filename : string) (manifest : gmap string Entry)
  : list Line * Res bool :=
  let model_name := model_name_of filename in
  let config := config_of model_name in
  let gender := gender_of config in
  let current_state := state_of fs host filename in
  let check := needs_update FORCE_REBUILD model_name current_state manifest in
  if negb check.2 then ((check.1 ++ [Skipping model_name])%list, Ret false)
  else
    let s := build_summary fs host filename model_name config gender
               current_state in
    ((check.1 ++ s.1)%list, s.2).

(** ** The calls of a batch *)

(** The calls of [process_model] that the loop of lines 306-308 makes from
    the world [w], each with its outcome; the loop stops at a call that
    raises. *)
Fixpoint history (FORCE_REBUILD : bool) (fs : FS) (host : Host)
    (files : list string) (w : World) : list (string * Out bool) :=
  match files with
  | [] => []
  | f :: rest =>
      let o := process_model FORCE_REBUILD fs host f w in
      (f, o) :: match result o with
                | Ret _ => history FORCE_REBUILD fs host rest (world o)
                | Raise _ => []
                end
  end.

(** The list [files] of line 303. *)
Definition model_files (fs : FS) : list string :=
  match source_dir fs with
  | Some entries => filter (fun f => is_model_file f = true) (entries.*1)
  | None => []
  end.

(** The world once line 299 has bound [manifest]. *)
Definition loaded (w : World) : World :=
  {| manifest := match build_log_file w with
                 | LogFileWith data => data
                 | _ => ∅
                 end;
     build_log_file := build_log_file w;
     saves := saves w |}.

Definition batch_history (FORCE_REBUILD : bool) (fs : FS) (host : Host)
    (w : World) : list (string * Out bool) :=
  history FORCE_REBUILD fs host (model_files fs) (loaded w).

(** ** Sample hosts *)

Definition blender_ok : EngineRun :=
  {| clean_scene_raises := None;
     import_fbx_raises := None;
     import_gltf_raises := None;
     armature_found := true;
     rig_setup_raises := None;
     attach_raises := λ _ _ _, None;
     fix_arms_action := λ target_name _ _, Some target_name;
     export_raises := None |}.

(** Blender raises while the animation for [slot] is attached: in the
    import of line 257, before an action is there to correct. *)
Definition blender_attach_fails (slot : string) : EngineRun :=
  {| clean_scene_raises := None;
     import_fbx_raises := None;
     import_gltf_raises := None;
     armature_found := true;
     rig_setup_raises := None;
     attach_raises := λ target_name _ _,
       if decide (target_name = slot) then Some "RuntimeError: import failed"
       else None;
     fix_arms_action := λ target_name _ _,
       if decide (target_name = slot) then None else Some target_name;
     export_raises := None |}.

(** Blender raises in the export operator. *)
Definition blender_export_fails : EngineRun :=
  {| clean_scene_raises := None;
     import_fbx_raises := None;
     import_gltf_raises := None;
     armature_found := true;
     rig_setup_raises := None;
     attach_raises := λ _ _ _, None;
     fix_arms_action := λ target_name _ _, Some target_name;
     export_raises := Some "RuntimeError: export failed" |}.

Definition host_ok : Host :=
  {| engine := λ _, blender_ok;
     clock := λ _, "2024-05-01 10:00:00";
     final_clean_scene_raises := None |}.

(** The same Blender a day later. *)
Definition host_ok_later : Host :=
  {| engine := λ _, blender_ok;
     clock := λ _, "2024-05-02 10:00:00";
     final_clean_scene_raises := None |}.

(** Attaching [walk] raises for every model. *)
Definition host_walk_fails : Host :=
  {| engine := λ _, blender_attach_fails "walk";
     clock := λ _, "2024-05-01 10:00:00";
     final_clean_scene_raises := None |}.

(** The export of [katinka.glb] raises; the other models are fine. *)
Definition host_katinka_export_fails : Host :=
  {| engine := λ filename,
       if decide (filename = "katinka.glb") then blender_export_fails
       else blender_ok;
     clock := λ _, "2024-05-01 10:00:00";
     final_clean_scene_raises := None |}.

(** A first run: no manifest file yet. *)
Definition fresh_world : World :=
  {| manifest := ∅; build_log_file := NoLogFile; saves := 0 |}.

(** Two model files with the same stem and different time stamps. *)
Definition fs_same_stem : FS :=
  {| source_dir := Some [("leib.fbx", 100%Z); ("leib.glb", 150%Z)];
     anim_dir := {[ "M_walk.fbx" := 5%Z ]};
     raw_assets_dir := true |}.

(** Blender raises in both import operators. *)
Definition blender_import_fails : EngineRun :=
  {| clean_scene_raises := None;
     import_fbx_raises := Some "RuntimeError: cannot read file";
     import_gltf_raises := Some "RuntimeError: cannot read file";
     armature_found := true;
     rig_setup_raises := None;
     attach_raises := λ _ _ _, None;
     fix_arms_action := λ target_name _ _, Some target_name;
     export_raises := None |}.

Definition host_import_fails : Host :=
  {| engine := λ _, blender_import_fails;
     clock := λ _, "2024-05-01 10:00:00";
     final_clean_scene_raises := None |}.

(** The world after [save_manifest(manifest)]. *)
Definition saved (w : World) : World :=
  {| manifest := manifest w;
     build_log_file := LogFileWith (manifest w);
     saves := S (saves w) |}.

(** Did the call return [True]? *)
Definition returned_true (c : Out bool) : bool :=
  match result c with
  | Ret true => true
  | _ => false
  end.

(** Did one of the calls return [True]? *)
Definition any_built (calls : list (string * Out bool)) : bool :=
  existsb (λ fc, returned_true fc.2) calls.

(** ** Vocabulary of the further properties *)

(** The last line the animation loop prints for one animation of a gathered
    state: Blender is handed the recorded file. *)
Definition attach_line (run : EngineRun) (extra_angle : Z)
    (item : string * AnimInfo) : Line :=
  match attach_raises run item.1 (Some (InAnimDir (file item.2))) extra_angle
  with
  | None => Added item.1
  | Some e => ErrorProcessing item.1 e
  end.

(** All the animation loop prints for one animation of a gathered state. *)
Definition attach_report (run : EngineRun) (extra_angle : Z)
    (item : string * AnimInfo) : list Line :=
  (fix_arms_lines run item.1 (Some (InAnimDir (file item.2))) extra_angle
   ++ [attach_line run extra_angle item])%list.

(** Blender without a working glTF importer. *)
Definition blender_gltf_broken : EngineRun :=
  {| clean_scene_raises := None;
     import_fbx_raises := None;
     import_gltf_raises := Some "RuntimeError: no glTF add-on";
     armature_found := true;
     rig_setup_raises := None;
     attach_raises := λ _ _ _, None;
     fix_arms_action := λ target_name _ _, Some target_name;
     export_raises := None |}.

Definition host_gltf_broken : Host :=
  {| engine := λ _, blender_gltf_broken;
     clock := λ _, "2024-05-01 10:00:00";
     final_clean_scene_raises := None |}.

(** A manifest file that says [leib] was built from a source with another
    time stamp. *)
Definition world_with_old_leib : World :=
  {| manifest := ∅;
     build_log_file :=
       LogFileWith {[ "leib" := {| last_build_date := Some "2023-01-01 00:00:00";
                                   last_source_file := Some "leib.fbx";
                                   last_source_mtime := Some 1%Z;
                                   last_config := Some DEFAULT_CONFIG;
                                   last_animations := Some ∅ |} ]};
     saves := 0 |}.

(** An entry written by hand, without the key [source_mtime]. *)
Definition entry_without_source_mtime : Entry :=
  {| last_build_date := None;
     last_source_file := Some "leib.fbx";
     last_source_mtime := None;
     last_config := Some DEFAULT_CONFIG;
     last_animations := Some ∅ |}.

(** No armature in the imported file. *)
Definition blender_no_armature : EngineRun :=
  {| clean_scene_raises := None;
     import_fbx_raises := None;
     import_gltf_raises := None;
     armature_found := false;
     rig_setup_raises := None;
     attach_raises := λ _ _ _, None;
     fix_arms_action := λ target_name _ _, Some target_name;
     export_raises := None |}.

Definition host_no_armature : Host :=
  {| engine := λ _, blender_no_armature;
     clock := λ _, "2024-05-01 10:00:00";
     final_clean_scene_raises := None |}.

(** ** [fix_arm_spacing] (lines 109-136)

    The calls the function makes on the scene and on the pose bones, in
    order.  The value of the rotation (a product of quaternions of floats)
    is not modelled: a rotation is recorded as the bone and the angle.
    [bones] are the names of the armature's pose bones, [frame_start] and
    [frame_end] the integers [int(action.frame_range[0])] and
    [int(action.frame_range[1])]. *)

Inductive ArmCall :=
| PrintFixArms (angle : Z) (action_name : string)
| FrameSet (f : Z)
| SetQuaternionMode (bone : string)
| RotateX (bone : string) (angle : Z)
| KeyframeInsert (bone : string) (f : Z).

#[global] Instance ArmCall_eq_dec : EqDecision ArmCall.
Proof. solve_decision. Defined.

(** [bones.get(first) or bones.get(second)]. *)
Definition get_bone (bones : gset string) (first second : string)
  : option string :=
  if decide (first ∈ bones) then Some first
  else if decide (second ∈ bones) then Some second
  else None.

(** The three statements under [if pb:]. *)
Definition rotate_and_key (pb : option string) (angle f : Z) : list ArmCall :=
  match pb with
  | Some bone => [SetQuaternionMode bone; RotateX bone angle;
                  KeyframeInsert bone f]
  | None => []
  end.

(** The body of the loop of lines 122-136. *)
Definition fix_frame (bones : gset string) (angle f : Z) : list ArmCall :=
  let pb_l := get_bone bones "mixamorig:LeftArm" "LeftArm" in
  let pb_r := get_bone bones "mixamorig:RightArm" "RightArm" in
  (FrameSet f :: rotate_and_key pb_l angle f ++ rotate_and_key pb_r angle f)%list.

Definition fix_arm_spacing (bones : gset string) (action_name : string)
    (frame_start frame_end : Z) (angle : Z) : list ArmCall :=
  if decide (angle = 0%Z) then []
  else
    PrintFixArms angle action_name
    :: flat_map (fix_frame bones angle)
         (seqZ frame_start (frame_end + 1 - frame_start)).

(** Lines 265-266, the only call of [fix_arm_spacing]. *)
Definition fix_arms_if_configured (bones : gset string) (action_name : string)
    (frame_start frame_end : Z) (extra_angle : Z) : list ArmCall :=
  if (0 <? extra_angle)%Z
  then fix_arm_spacing bones action_name frame_start frame_end extra_angle
  else [].

(** The bones of a Mixamo rig, and of a rig without the prefix and without a
    right arm. *)
Definition mixamo_bones : gset string :=
  {[ "mixamorig:LeftArm"; "mixamorig:RightArm"; "LeftArm";
     "mixamorig:RightHand" ]}.

Definition one_armed_bones : gset string := {[ "LeftArm"; "Hips" ]}.

Definition is_keyframe (c : ArmCall) : bool :=
  match c with
  | KeyframeInsert _ _ => true
  | _ => false
  end.

(** How many of the two arms the rig has. *)
Definition arms_found (bones : gset string) : nat :=
  (if get_bone bones "mixamorig:LeftArm" "LeftArm" is Some _ then 1 else 0)
  + (if get_bone bones "mixamorig:RightArm" "RightArm" is Some _ then 1 else 0).

(** The same host with a Blender that never raises while an animation is
    attached; every other answer is kept. *)
Definition without_attach_errors (host : Host) : Host :=
  {| engine := λ filename,
       {| clean_scene_raises := clean_scene_raises (engine host filename);
          import_fbx_raises := import_fbx_raises (engine host filename);
          import_gltf_raises := import_gltf_raises (engine host filename);
          armature_found := armature_found (engine host filename);
          rig_setup_raises := rig_setup_raises (engine host filename);
          attach_raises := λ _ _ _, None;
          fix_arms_action := fix_arms_action (engine host filename);
          export_raises := export_raises (engine host filename) |};
     clock := clock host;
     final_clean_scene_raises := final_clean_scene_raises host |}.

(** The fields of a state that its outputs depend on: the time stamp of the
    source, the configuration and the resolved animations.  The other two
    fields, [build_date] and [source_file], are kept for the reader of the
    manifest and are never compared. *)
Definition snapshot_of (s : State) : Z * Config * list (string * AnimInfo) :=
  (source_mtime s, config s, animations s).

(** What resolution records for one slot: the name and the time stamp of the
    file found, [None] when there is none. *)
Definition resolved (fs : FS) (gender base_filename : string)
  : option AnimInfo :=
  (λ anim_path, {| file := basename anim_path;
                   mtime := get_file_timestamp fs anim_path |})
    <$> find_animation_file fs base_filename gender.

(** The sample library seen from another checkout: other files beside the
    models, another listing order, one more clip that no slot names, and no
    export directory. *)
Definition fs_male_library_elsewhere : FS :=
  {| source_dir := Some [("readme.txt", 1%Z); ("marco.FBX", 300%Z);
                         ("katinka.glb", 200%Z); ("leib.fbx", 100%Z)];
     anim_dir := {[ "M_walk.fbx" := 5%Z; "M_cast.fbx" := 7%Z;
                    "F_dance.fbx" := 9%Z ]};
     raw_assets_dir := false |}.

(** Blender raises in the last scene reset of the batch (line 311). *)
Definition host_final_clean_fails : Host :=
  {| engine := λ _, blender_ok;
     clock := λ _, "2024-05-01 10:00:00";
     final_clean_scene_raises := Some "RuntimeError: context is incorrect" |}.

(** * Properties *)

Local Open Scope list_scope.

Example splitext_fbx : splitext "leib.fbx" = ("leib", ".fbx").
Proof. reflexivity. Qed.

Example splitext_two_dots : splitext "a.b.GLB" = ("a.b", ".GLB").
Proof. reflexivity. Qed.

Example splitext_hidden : splitext ".fbx" = (".fbx", "").
Proof. reflexivity. Qed.

Example endswith_upper : endswith (lower "Marco.FBX") ".fbx" = true.
Proof. reflexivity. Qed.

(** ** Ordered dictionaries *)

Lemma dict_get_None {V} (d : list (string * V)) k :
  dict_get d k = None ↔ k ∉ d.*1.
Proof.
  induction d as [|[k' v] d IH]; simpl.
  - split; [intros _; apply not_elem_of_nil | done].
  - rewrite not_elem_of_cons. destruct (decide (k' = k)) as [->|Hne].
    + split; [done | by intros [? _]].
    + rewrite IH. split; [intros ?; split; [congruence | done] | by intros [_ ?]].
Qed.

Lemma dict_get_Some_elem {V} (d : list (string * V)) k v :
  dict_get d k = Some v → (k, v) ∈ d.
Proof.
  induction d as [|[k' v'] d IH]; simpl; [done|].
  destruct (decide (k' = k)) as [->|Hne].
  - intros [= ->]. left.
  - intros Hget. right. auto.
Qed.

Lemma dict_get_elem {V} (d : list (string * V)) k v :
  NoDup d.*1 → (k, v) ∈ d → dict_get d k = Some v.
Proof.
  induction d as [|[k' v'] d IH]; simpl; intros Hnd Hin.
  - by apply elem_of_nil in Hin.
  - apply NoDup_cons in Hnd as [Hk' Hnd].
    apply elem_of_cons in Hin as [[= -> ->]|Hin].
    + by rewrite decide_True.
    + rewrite decide_False; [auto|].
      intros ->. apply Hk'. apply list_elem_of_fmap. by exists (k, v).
Qed.

Lemma dict_set_fresh {V} (d : list (string * V)) k v :
  k ∉ d.*1 → dict_set d k v = d ++ [(k, v)].
Proof.
  induction d as [|[k' v'] d IH]; simpl; [done|].
  rewrite not_elem_of_cons. intros [Hne Hk].
  rewrite decide_False by done. by rewrite IH.
Qed.

(** ** The animation loop of [needs_update] *)

Lemma slot_stale_dec last_build anim_name anim_data :
  Decision (slot_stale last_build anim_name anim_data).
Proof.
  unfold slot_stale.
  destruct (animations_of last_build !! anim_name) as [last_anim|].
  - destruct (decide (Some (mtime anim_data) = last_mtime last_anim)) as [He|Hne].
    + right. intros [?|(x & [= <-] & Hx)]; done.
    + left. right. by exists last_anim.
  - left. by left.
Defined.

Lemma check_animations_cons_fresh anim_name anim_data rest last_build :
  ¬ slot_stale last_build anim_name anim_data →
  check_animations ((anim_name, anim_data) :: rest) last_build
  = check_animations rest last_build.
Proof.
  intros Hfresh. simpl. unfold slot_stale in Hfresh.
  destruct (animations_of last_build !! anim_name) as [last_anim|].
  - case_decide as Hne; [|done]. exfalso. apply Hfresh. right. eauto.
  - exfalso. apply Hfresh. by left.
Qed.

Lemma check_animations_cons_stale anim_name anim_data rest last_build :
  slot_stale last_build anim_name anim_data →
  check_animations ((anim_name, anim_data) :: rest) last_build
  = (match animations_of last_build !! anim_name with
     | None => [NewAnimationAdded anim_name]
     | Some _ => [AnimationFileChanged anim_name]
     end, true).
Proof.
  intros Hstale. simpl. unfold slot_stale in Hstale.
  destruct (animations_of last_build !! anim_name) as [last_anim|]; [|done].
  destruct Hstale as [?|(x & [= <-] & Hx)]; [done|].
  by rewrite decide_True.
Qed.

Lemma check_animations_fresh items last_build :
  (∀ k a, (k, a) ∈ items → ¬ slot_stale last_build k a) →
  check_animations items last_build = ([], false).
Proof.
  induction items as [|[k a] items IH]; intros Hall; [done|].
  rewrite check_animations_cons_fresh.
  - apply IH. intros k' a' Hin. apply Hall. by right.
  - apply Hall. left.
Qed.

Lemma check_animations_first pre k a post last_build :
  (∀ k' a', (k', a') ∈ pre → ¬ slot_stale last_build k' a') →
  slot_stale last_build k a →
  check_animations (pre ++ (k, a) :: post) last_build
  = (match animations_of last_build !! k with
     | None => [NewAnimationAdded k]
     | Some _ => [AnimationFileChanged k]
     end, true).
Proof.
  induction pre as [|[k' a'] pre IH]; intros Hpre Hstale.
  - by apply check_animations_cons_stale.
  - rewrite <- app_comm_cons, check_animations_cons_fresh.
    + apply IH; [|done]. intros k'' a'' Hin. apply Hpre. by right.
    + apply Hpre. left.
Qed.

Lemma check_animations_stale items last_build :
  (check_animations items last_build).2 = true
  ↔ ∃ k a, (k, a) ∈ items ∧ slot_stale last_build k a.
Proof.
  induction items as [|[k a] items IH].
  - simpl. split; [done|]. intros (k & a & Hin & _). by apply elem_of_nil in Hin.
  - destruct (slot_stale_dec last_build k a) as [Hs|Hf].
    + rewrite check_animations_cons_stale by done. simpl.
      split; [|done]. intros _. exists k, a. split; [left | done].
    + rewrite check_animations_cons_fresh by done. rewrite IH.
      split.
      * intros (k' & a' & Hin & Hs). exists k', a'. split; [by right | done].
      * intros (k' & a' & Hin & Hs).
        apply elem_of_cons in Hin as [[= -> ->]|Hin]; [done|].
        by exists k', a'.
Qed.

Lemma needs_update_up_to_date model_name current_state manifest last_build :
  manifest !! model_name = Some last_build →
  Some (source_mtime current_state) = last_source_mtime last_build →
  Some (config current_state) = last_config last_build →
  (∀ k a, (k, a) ∈ animations current_state → ¬ slot_stale last_build k a) →
  needs_update false model_name current_state manifest = ([], false).
Proof.
  intros Hentry Hsrc Hcfg Hall. unfold needs_update. rewrite Hentry.
  rewrite !decide_False by (by intros ?).
  by apply check_animations_fresh.
Qed.

(** C1. [needs_update] returns [True] exactly when the force flag is set, or
    the model has no manifest entry, or the source time stamp differs from
    the stored one, or the configuration differs from the stored one, or an
    animation of the current state is missing from the stored entry or
    stored with another time stamp; otherwise it returns [False].  The tests
    are made in that order and the first one that fires decides: what is
    printed names it. *)
Theorem needs_update_iff (force : bool) (model_name : string)
    (current_state : State) (manifest : gmap string Entry) :
  ((needs_update force model_name current_state manifest).2 = true
   ↔ force = true
     ∨ manifest !! model_name = None
     ∨ ∃ last_build, manifest !! model_name = Some last_build
         ∧ (Some (source_mtime current_state) ≠ last_source_mtime last_build
            ∨ Some (config current_state) ≠ last_config last_build
            ∨ ∃ k a, (k, a) ∈ animations current_state
                     ∧ slot_stale last_build k a))
  ∧ (force = true →
     needs_update force model_name current_state manifest = ([], true))
  ∧ (force = false → manifest !! model_name = None →
     needs_update force model_name current_state manifest = ([], true))
  ∧ (∀ last_build,
       force = false → manifest !! model_name = Some last_build →
       Some (source_mtime current_state) ≠ last_source_mtime last_build →
       needs_update force model_name current_state manifest
       = ([SourceModelChanged], true))
  ∧ (∀ last_build,
       force = false → manifest !! model_name = Some last_build →
       Some (source_mtime current_state) = last_source_mtime last_build →
       Some (config current_state) ≠ last_config last_build →
       needs_update force model_name current_state manifest
       = ([ConfigurationChanged], true))
  ∧ (∀ last_build pre k a post,
       force = false → manifest !! model_name = Some last_build →
       Some (source_mtime current_state) = last_source_mtime last_build →
       Some (config current_state) = last_config last_build →
       animations current_state = pre ++ (k, a) :: post →
       (∀ k' a', (k', a') ∈ pre → ¬ slot_stale last_build k' a') →
       slot_stale last_build k a →
       needs_update force model_name current_state manifest
       = (match animations_of last_build !! k with
          | None => [NewAnimationAdded k]
          | Some _ => [AnimationFileChanged k]
          end, true))
  ∧ (∀ last_build,
       force = false → manifest !! model_name = Some last_build →
       Some (source_mtime current_state) = last_source_mtime last_build →
       Some (config current_state) = last_config last_build →
       (∀ k a, (k, a) ∈ animations current_state →
               ¬ slot_stale last_build k a) →
       needs_update force model_name current_state manifest = ([], false)).
Proof.
  unfold needs_update. split; [|repeat split].
  - destruct force; [split; [by left | done]|].
    destruct (manifest !! model_name) as [last_build|];
      [|split; [by right; left | done]].
    case_decide as Hsrc.
    { split; [|done]. intros _. right; right.
      exists last_build. split; [done | by left]. }
    case_decide as Hcfg.
    { split; [|done]. intros _. right; right.
      exists last_build. split; [done | by right; left]. }
    rewrite check_animations_stale. split.
    + intros Hex. right; right. exists last_build. split; [done | by right; right].
    + intros [?|[?|(e' & [= <-] & [?|[?|?]])]]; done.
  - by intros ->.
  - by intros -> ->.
  - intros last_build -> -> Hsrc. by rewrite decide_True.
  - intros last_build -> -> Hsrc Hcfg.
    by rewrite decide_False, decide_True by (by intros ?).
  - intros last_build pre k a post -> -> Hsrc Hcfg -> Hpre Hstale.
    rewrite !decide_False by (by intros ?).
    by apply check_animations_first.
  - intros last_build -> Hentry Hsrc Hcfg Hall.
    by apply (needs_update_up_to_date _ _ _ last_build).
Qed.

(** ** Resolving animation files *)

Lemma path_exists_anim fs name :
  path_exists fs (InAnimDir name) = true ↔ in_library fs name.
Proof. unfold path_exists, in_library. simpl. apply bool_decide_eq_true. Qed.

Lemma path_exists_anim_false fs name :
  path_exists fs (InAnimDir name) = false ↔ ¬ in_library fs name.
Proof. unfold path_exists, in_library. simpl. apply bool_decide_eq_false. Qed.

Lemma find_animation_file_first fs base_filename gender :
  in_library fs (gender ++ "_" ++ base_filename)%string →
  find_animation_file fs base_filename gender
  = Some (InAnimDir (gender ++ "_" ++ base_filename)%string).
Proof.
  intros Hin. unfold find_animation_file.
  apply path_exists_anim in Hin. by rewrite Hin.
Qed.

Lemma find_animation_file_fallback fs base_filename gender :
  ¬ in_library fs (gender ++ "_" ++ base_filename)%string →
  gender = "F" →
  in_library fs ("M_" ++ base_filename)%string →
  find_animation_file fs base_filename gender
  = Some (InAnimDir ("M_" ++ base_filename)%string).
Proof.
  intros Hf Hg Hm. unfold find_animation_file.
  apply path_exists_anim_false in Hf. apply path_exists_anim in Hm.
  rewrite Hf. rewrite decide_True by done. by rewrite Hm.
Qed.

Lemma find_animation_file_no_fallback fs base_filename gender :
  ¬ in_library fs (gender ++ "_" ++ base_filename)%string →
  gender ≠ "F" →
  find_animation_file fs base_filename gender = None.
Proof.
  intros Hg Hne. unfold find_animation_file.
  apply path_exists_anim_false in Hg. rewrite Hg.
  by rewrite decide_False.
Qed.

Lemma find_animation_file_neither fs base_filename gender :
  ¬ in_library fs (gender ++ "_" ++ base_filename)%string →
  ¬ in_library fs ("M_" ++ base_filename)%string →
  find_animation_file fs base_filename gender = None.
Proof.
  intros Hg Hm. unfold find_animation_file.
  apply path_exists_anim_false in Hg. apply path_exists_anim_false in Hm.
  rewrite Hg. case_decide; [|done]. by rewrite Hm.
Qed.

Lemma resolve_animations_app fs gender targets acc :
  NoDup targets.*1 →
  (∀ k, k ∈ targets.*1 → k ∉ acc.*1) →
  resolve_animations fs gender targets acc
  = acc ++ omap (resolve_one fs gender) targets.
Proof.
  revert acc. induction targets as [|[target_name base_filename] rest IH];
    intros acc Hnd Hacc; simpl.
  - by rewrite app_nil_r.
  - simpl in Hnd. apply NoDup_cons in Hnd as [Hfresh Hnd].
    unfold resolve_one at 1. simpl.
    destruct (find_animation_file fs base_filename gender) as [anim_path|]; simpl.
    + rewrite dict_set_fresh by (apply Hacc; left).
      rewrite IH; [by rewrite <- app_assoc | done |].
      intros k Hk. rewrite fmap_app, elem_of_app. simpl.
      intros [Hin|Hin%list_elem_of_singleton].
      * by apply (Hacc k); [right|].
      * by subst.
    + apply IH; [done|]. intros k Hk. apply Hacc. by right.
Qed.

Lemma ANIMATION_TARGETS_NoDup : NoDup ANIMATION_TARGETS.*1.
Proof. apply (bool_decide_unpack _). by vm_compute. Qed.

Lemma animations_gathered fs now filename :
  animations (gather_current_state fs now filename)
  = omap (resolve_one fs (gender_of (config_of (splitext filename).1)))
      ANIMATION_TARGETS.
Proof.
  unfold gather_current_state. cbn [animations].
  rewrite resolve_animations_app; [done | apply ANIMATION_TARGETS_NoDup |].
  intros k _. apply not_elem_of_nil.
Qed.

Lemma omap_resolve_keys fs gender targets :
  (omap (resolve_one fs gender) targets).*1 `sublist_of` targets.*1.
Proof.
  induction targets as [|[target_name base_filename] rest IH]; simpl; [done|].
  unfold resolve_one at 1. simpl.
  destruct (find_animation_file fs base_filename gender); simpl.
  - by apply sublist_skip.
  - by apply sublist_cons.
Qed.

Lemma animations_gathered_NoDup fs now filename :
  NoDup (animations (gather_current_state fs now filename)).*1.
Proof.
  rewrite animations_gathered.
  eapply sublist_NoDup; [apply ANIMATION_TARGETS_NoDup | apply omap_resolve_keys].
Qed.

Lemma dict_get_omap_resolve fs gender targets target_name base_filename :
  NoDup targets.*1 →
  (target_name, base_filename) ∈ targets →
  dict_get (omap (resolve_one fs gender) targets) target_name
  = (λ anim_path, {| file := basename anim_path;
                     mtime := get_file_timestamp fs anim_path |})
    <$> find_animation_file fs base_filename gender.
Proof.
  induction targets as [|[k b] rest IH]; intros Hnd Hin.
  - by apply elem_of_nil in Hin.
  - simpl in Hnd. apply NoDup_cons in Hnd as [Hfresh Hnd].
    assert (Hrest : ∀ b', (k, b') ∈ rest → False).
    { intros b' Hin'. apply Hfresh, list_elem_of_fmap. by exists (k, b'). }
    simpl. unfold resolve_one at 1. simpl.
    apply elem_of_cons in Hin as [[= -> ->]|Hin].
    + destruct (find_animation_file fs b gender) as [p|]; simpl.
      * by rewrite decide_True.
      * apply dict_get_None. intros Hk.
        apply Hfresh. eapply elem_of_sublist; [done | apply omap_resolve_keys].
    + assert (k ≠ target_name) by (intros ->; by eapply Hrest).
      destruct (find_animation_file fs b gender) as [p|]; simpl.
      * rewrite decide_False by done. by apply IH.
      * by apply IH.
Qed.

(** C5. A slot is resolved by looking for [{gender}_{base}] in the animation
    library first; for gender [F], when that file is missing, [M_{base}] is
    taken instead; for gender [M] there is no second lookup; and a slot for
    which no file was found has no key in the state's animations, while a
    resolved slot records the file's name and time stamp.  Gathering the
    state is a total function: resolution cannot fail. *)
Theorem animation_resolution (fs : FS) :
  (∀ base_filename gender,
     (in_library fs (gender ++ "_" ++ base_filename)%string →
      find_animation_file fs base_filename gender
      = Some (InAnimDir (gender ++ "_" ++ base_filename)%string))
     ∧ (¬ in_library fs (gender ++ "_" ++ base_filename)%string →
        gender = "F" →
        in_library fs ("M_" ++ base_filename)%string →
        find_animation_file fs base_filename gender
        = Some (InAnimDir ("M_" ++ base_filename)%string))
     ∧ (¬ in_library fs (gender ++ "_" ++ base_filename)%string →
        gender = "M" →
        find_animation_file fs base_filename gender = None)
     ∧ (¬ in_library fs (gender ++ "_" ++ base_filename)%string →
        ¬ in_library fs ("M_" ++ base_filename)%string →
        find_animation_file fs base_filename gender = None))
  ∧ (∀ now filename target_name base_filename,
       (target_name, base_filename) ∈ ANIMATION_TARGETS →
       let current_state := gather_current_state fs now filename in
       let gender := gender_of (config current_state) in
       dict_get (animations current_state) target_name
       = (λ anim_path, {| file := basename anim_path;
                          mtime := get_file_timestamp fs anim_path |})
         <$> find_animation_file fs base_filename gender
       ∧ (find_animation_file fs base_filename gender = None →
          target_name ∉ (animations current_state).*1)).
Proof.
  split.
  - intros base_filename gender. repeat split.
    + apply find_animation_file_first.
    + apply find_animation_file_fallback.
    + intros Hg ->. by apply find_animation_file_no_fallback.
    + apply find_animation_file_neither.
  - intros now filename target_name base_filename Hrow current_state gender.
    assert (Hget : dict_get (animations current_state) target_name
                   = (λ anim_path, {| file := basename anim_path;
                          mtime := get_file_timestamp fs anim_path |})
                     <$> find_animation_file fs base_filename gender).
    { unfold current_state. rewrite animations_gathered.
      apply dict_get_omap_resolve; [apply ANIMATION_TARGETS_NoDup | done]. }
    split; [done|].
    intros Hnone. apply dict_get_None. by rewrite Hget, Hnone.
Qed.

Example katinka_walk_falls_back :
  dict_get (animations (gather_current_state fs_male_library "" "katinka.glb"))
    "walk"
  = Some {| file := "M_walk.fbx"; mtime := 5 |}.
Proof. reflexivity. Qed.

Example katinka_walk_unresolved :
  animations (gather_current_state fs_no_library "" "katinka.glb") = [].
Proof. reflexivity. Qed.

Example katinka_walk_own_clip :
  dict_get (animations (gather_current_state fs_female_walk "" "katinka.glb"))
    "walk"
  = Some {| file := "F_walk.fbx"; mtime := 5 |}.
Proof. reflexivity. Qed.

(** ** Gathering is a function of the file system and the clock *)

(** The state also carries [build_date], read from the clock: two states
    gathered a second apart differ there, and only there. *)
Lemma gathered_twice_differs :
  gather_current_state fs_male_library "2024-05-01 10:00:00" "leib.fbx"
  ≠ gather_current_state fs_male_library "2024-05-01 10:00:01" "leib.fbx".
Proof. intros Heq. by apply (f_equal build_date) in Heq. Qed.

Lemma resolve_one_resolved fs gender row :
  resolve_one fs gender row
  = (λ a, (row.1, a)) <$> resolved fs gender row.2.
Proof.
  unfold resolve_one, resolved.
  by destruct (find_animation_file fs row.2 gender).
Qed.

Lemma gathered_slot_resolved fs now filename target_name base_filename :
  (target_name, base_filename) ∈ ANIMATION_TARGETS →
  dict_get (animations (gather_current_state fs now filename)) target_name
  = resolved fs (gender_of (config_of (splitext filename).1)) base_filename.
Proof.
  intros Hrow. rewrite animations_gathered.
  by apply dict_get_omap_resolve; [apply ANIMATION_TARGETS_NoDup|].
Qed.

Lemma omap_agree {A B} (f g : A → option B) (l : list A) :
  (∀ x, x ∈ l → f x = g x) → omap f l = omap g l.
Proof.
  induction l as [|x l IH]; intros Hall; [done|].
  change (omap f (x :: l))
    with (match f x with Some y => y :: omap f l | None => omap f l end).
  change (omap g (x :: l))
    with (match g x with Some y => y :: omap g l | None => omap g l end).
  rewrite (Hall x) by left. rewrite IH; [done|].
  intros y Hy. apply Hall. by right.
Qed.


(** ** What the staleness test does not look at *)

Lemma check_animations_ext items last_build last_build' :
  (∀ k, k ∈ items.*1 →
        last_mtime <$> animations_of last_build !! k
        = last_mtime <$> animations_of last_build' !! k) →
  check_animations items last_build = check_animations items last_build'.
Proof.
  induction items as [|[k a] items IH]; intros Hsame; [done|].
  simpl. pose proof (Hsame k ltac:(left)) as Hk.
  destruct (animations_of last_build !! k) as [x|],
           (animations_of last_build' !! k) as [x'|]; simplify_eq/=; try done.
  rewrite Hk. case_decide; [done|].
  apply IH. intros k' Hk'. apply Hsame. by right.
Qed.

Lemma needs_update_ext force model_name current_state manifest
    last_build last_build' :
  last_source_mtime last_build = last_source_mtime last_build' →
  last_config last_build = last_config last_build' →
  (∀ k, k ∈ (animations current_state).*1 →
        last_mtime <$> animations_of last_build !! k
        = last_mtime <$> animations_of last_build' !! k) →
  needs_update force model_name current_state
    (<[model_name := last_build]> manifest)
  = needs_update force model_name current_state
      (<[model_name := last_build']> manifest).
Proof.
  intros Hsrc Hcfg Hanims. unfold needs_update.
  rewrite !lookup_insert_eq, Hsrc, Hcfg.
  by rewrite (check_animations_ext _ _ _ Hanims).
Qed.

Lemma animations_of_with_animation anim_name old last_build k :
  k ≠ anim_name →
  animations_of (with_animation anim_name old last_build) !! k
  = animations_of last_build !! k.
Proof. intros Hne. unfold animations_of at 1. simpl. by rewrite lookup_insert_ne. Qed.

Lemma animations_of_with_last_files rename last_build k :
  last_mtime <$> animations_of (with_last_files rename last_build) !! k
  = last_mtime <$> animations_of last_build !! k.
Proof.
  unfold animations_of. simpl.
  destruct (last_animations last_build) as [anims|]; simpl; [|done].
  rewrite map_lookup_imap. by destruct (anims !! k).
Qed.

Lemma matching_slot_fresh last_build k a :
  (∃ last_anim, animations_of last_build !! k = Some last_anim
                ∧ last_mtime last_anim = Some (mtime a)) →
  ¬ slot_stale last_build k a.
Proof.
  intros (last_anim & Hk & Hm) [Hnone|(x & Hx & Hne)]; [congruence|].
  rewrite Hk in Hx. injection Hx as <-. by rewrite Hm in Hne.
Qed.

(** C6. An animation that the stored entry records but the current state no
    longer has never makes [needs_update] answer [True]: recording such a
    slot in the entry leaves the answer as it is, and when the source time
    stamp, the configuration and every animation of the current state match
    the entry, the answer is [False] whatever else the entry records. *)
Theorem removed_animation_not_detected (force : bool) (model_name : string)
    (current_state : State) (manifest : gmap string Entry)
    (last_build : Entry) (removed : string) (old : AnimEntry) :
  removed ∉ (animations current_state).*1 →
  needs_update force model_name current_state
    (<[model_name := with_animation removed old last_build]> manifest)
  = needs_update force model_name current_state
      (<[model_name := last_build]> manifest)
  ∧ (Some (source_mtime current_state) = last_source_mtime last_build →
     Some (config current_state) = last_config last_build →
     (∀ k a, (k, a) ∈ animations current_state →
        ∃ last_anim, animations_of last_build !! k = Some last_anim
                     ∧ last_mtime last_anim = Some (mtime a)) →
     needs_update false model_name current_state
       (<[model_name := with_animation removed old last_build]> manifest)
     = ([], false)).
Proof.
  intros Hgone.
  assert (Hsame : needs_update force model_name current_state
            (<[model_name := with_animation removed old last_build]> manifest)
          = needs_update force model_name current_state
              (<[model_name := last_build]> manifest)).
  { apply needs_update_ext; [done..|].
    intros k Hk. rewrite animations_of_with_animation; [done|].
    by intros ->. }
  split; [done|].
  intros Hsrc Hcfg Hall.
  apply (needs_update_up_to_date _ _ _ (with_animation removed old last_build));
    [apply lookup_insert_eq | done | done |].
  intros k a Hin. apply matching_slot_fresh.
  rewrite animations_of_with_animation; [by apply Hall|].
  intros ->. apply Hgone, list_elem_of_fmap. by exists (removed, a).
Qed.

(** C10. The animation loop compares time stamps only.  When the source time
    stamp and the configuration match the stored entry and every animation
    of the current state is stored with the same time stamp, [needs_update]
    answers [False], whichever file name the entry records for the slot; and
    replacing every recorded file name never changes the answer. *)
Theorem staleness_ignores_file_names (model_name : string)
    (current_state : State) (manifest : gmap string Entry)
    (last_build : Entry) :
  manifest !! model_name = Some last_build →
  Some (source_mtime current_state) = last_source_mtime last_build →
  Some (config current_state) = last_config last_build →
  (∀ k a, (k, a) ∈ animations current_state →
     ∃ last_anim, animations_of last_build !! k = Some last_anim
                  ∧ last_mtime last_anim = Some (mtime a)) →
  needs_update false model_name current_state manifest = ([], false)
  ∧ ∀ force rename,
      needs_update force model_name current_state
        (<[model_name := with_last_files rename last_build]> manifest)
      = needs_update force model_name current_state manifest.
Proof.
  intros Hentry Hsrc Hcfg Hall. split.
  - apply (needs_update_up_to_date _ _ _ last_build); [done..|].
    intros k a Hin. by apply matching_slot_fresh, Hall.
  - intros force rename.
    rewrite <- (insert_id manifest model_name last_build) at 2 by done.
    apply needs_update_ext; [done..|].
    intros k _. apply animations_of_with_last_files.
Qed.

Example entry_with_cast_recorded :
  stored (gather_current_state fs_male_library "earlier" "leib.fbx")
  = with_animation "cast"
      {| last_file := Some "M_cast.fbx"; last_mtime := Some 7%Z |}
      (stored (gather_current_state fs_cast_removed "earlier" "leib.fbx")).
Proof. by vm_compute. Qed.

(** [leib] was built with [cast] resolved; [M_cast.fbx] is then deleted. *)
Lemma removed_animation_not_detected_witness :
  ("cast" ∉ (animations
               (gather_current_state fs_cast_removed "later" "leib.fbx")).*1)
  ∧ needs_update false "leib"
      (gather_current_state fs_cast_removed "later" "leib.fbx")
      (<["leib" := with_animation "cast"
           {| last_file := Some "M_cast.fbx"; last_mtime := Some 7%Z |}
           (stored (gather_current_state fs_cast_removed "earlier" "leib.fbx"))]>
         ∅)
    = ([], false).
Proof.
  assert (Hgone : "cast" ∉ (animations
             (gather_current_state fs_cast_removed "later" "leib.fbx")).*1).
  { apply (bool_decide_unpack _). by vm_compute. }
  split; [exact Hgone|].
  refine (proj2 (removed_animation_not_detected false "leib" _ ∅ _ "cast" _ Hgone)
            _ _ _).
  - reflexivity.
  - reflexivity.
  - intros k a Hin.
    change (animations (gather_current_state fs_cast_removed "later" "leib.fbx"))
      with [("walk", {| file := "M_walk.fbx"; mtime := 5 |})] in Hin.
    apply list_elem_of_singleton in Hin. injection Hin as -> ->.
    eexists. split; reflexivity.
Defined.

(** [katinka] was built with the [M] clip for [walk]; a clip [F_walk.fbx]
    with the same time stamp then appears and shadows it. *)
Lemma staleness_ignores_file_names_witness :
  dict_get (animations
              (gather_current_state fs_male_library "earlier" "katinka.glb"))
    "walk" = Some {| file := "M_walk.fbx"; mtime := 5 |}
  ∧ dict_get (animations
                (gather_current_state fs_female_walk "later" "katinka.glb"))
      "walk" = Some {| file := "F_walk.fbx"; mtime := 5 |}
  ∧ needs_update false "katinka"
      (gather_current_state fs_female_walk "later" "katinka.glb")
      {[ "katinka" :=
           stored (gather_current_state fs_male_library "earlier" "katinka.glb") ]}
    = ([], false).
Proof.
  split; [reflexivity|]. split; [reflexivity|].
  refine (proj1 (staleness_ignores_file_names "katinka" _ _
                   (stored (gather_current_state fs_male_library "earlier"
                              "katinka.glb")) _ _ _ _)).
  - apply lookup_singleton_eq.
  - reflexivity.
  - reflexivity.
  - intros k a Hin.
    change (animations (gather_current_state fs_female_walk "later" "katinka.glb"))
      with [("walk", {| file := "F_walk.fbx"; mtime := 5 |});
            ("cast", {| file := "M_cast.fbx"; mtime := 7 |})] in Hin.
    apply elem_of_cons in Hin as [Hin|Hin%list_elem_of_singleton];
      injection Hin as -> ->; eexists; split; reflexivity.
Defined.

(** ** One model: [build] and [process_model] *)

Local Arguments dict_get : simpl never.
Local Arguments endswith : simpl never.
Local Arguments splitext : simpl never.
Local Arguments needs_update : simpl never.
Local Arguments gather_current_state : simpl never.
Local Arguments find_animation_file : simpl never.
Local Arguments build : simpl never.
Local Arguments process_model : simpl never.

Ltac run_monad :=
  unfold mbind, M_bind, bind, try_except, bpy, print, say, ret, raise,
    get_manifest, manifest_set; simpl.

Lemma attach_animations_cons fs run gender extra_angle target_name anim_info rest :
  attach_animations fs run gender extra_angle ((target_name, anim_info) :: rest)
  = match dict_get ANIMATION_TARGETS target_name with
    | None => raise "KeyError"
    | Some base_filename =>
        let anim_path := find_animation_file fs base_filename gender in
        try_except
          (print_fix_arms run target_name anim_path extra_angle;;
           bpy (attach_raises run target_name anim_path extra_angle);;
           print (Added target_name))
          (fun e => print (ErrorProcessing target_name e));;
        attach_animations fs run gender extra_angle rest
    end.
Proof. reflexivity. Qed.

Lemma print_fix_arms_run run target_name anim_path extra_angle w :
  print_fix_arms run target_name anim_path extra_angle w
  = mkOut (fix_arms_lines run target_name anim_path extra_angle) (Ret tt) w.
Proof.
  unfold print_fix_arms, fix_arms_lines.
  destruct (fix_arms_action run target_name anim_path extra_angle);
    [|reflexivity].
  destruct (0 <? extra_angle)%Z; [|reflexivity].
  by case_decide.
Qed.

(** The animation loop never raises for slots of the table and leaves the
    world alone, whatever Blender answers. *)
Lemma attach_animations_run fs run gender extra_angle items w :
  (∀ k, k ∈ items.*1 → is_Some (dict_get ANIMATION_TARGETS k)) →
  attach_animations fs run gender extra_angle items w
  = mkOut (attach_lines fs run gender extra_angle items) (Ret tt) w.
Proof.
  induction items as [|[k a] items IH]; intros Hkeys; [reflexivity|].
  rewrite attach_animations_cons.
  destruct (Hkeys k ltac:(left)) as [base Hbase].
  unfold attach_lines. cbn [flat_map fst]. rewrite Hbase.
  fold (attach_lines fs run gender extra_angle items).
  assert (Hrest : ∀ k', k' ∈ items.*1 → is_Some (dict_get ANIMATION_TARGETS k'))
    by (intros k' Hk'; apply Hkeys; by right).
  specialize (IH Hrest). cbn zeta.
  unfold mbind, M_bind, bind, try_except.
  rewrite print_fix_arms_run. cbn [result world printed].
  unfold bpy, print, ret, raise.
  destruct (attach_raises run k (find_animation_file fs base gender) extra_angle);
    cbn [result world printed]; rewrite IH; cbn [result world printed];
    by rewrite ?app_nil_r, <- ?app_assoc.
Qed.

(** [build] does what its summary says. *)
Lemma build_run fs host filename model_name config gender current_state w :
  (∀ k, k ∈ (animations current_state).*1 →
        is_Some (dict_get ANIMATION_TARGETS k)) →
  build fs host filename model_name config gender current_state w
  = let s := build_summary fs host filename model_name config gender
               current_state in
    mkOut s.1 s.2 (world_after model_name current_state s.2 w).
Proof.
  intros Hkeys. unfold build, build_summary, import_answer.
  destruct (clean_scene_raises (engine host filename)) as [e|]; [reflexivity|].
  run_monad.
  assert (Hloop := λ w', attach_animations_run fs (engine host filename) gender
                     (default 0%Z (extra_arm_angle config))
                     (animations current_state) w' Hkeys).
  destruct (endswith (lower filename) ".fbx").
  - destruct (import_fbx_raises (engine host filename)) as [e|]; simpl;
      [reflexivity|].
    destruct (armature_found (engine host filename)); simpl; [|reflexivity].
    destruct (rig_setup_raises (engine host filename)) as [e|]; simpl;
      [reflexivity|].
    rewrite Hloop. simpl.
    destruct (raw_assets_dir fs); simpl; [|reflexivity].
    destruct (export_raises (engine host filename)) as [e|]; simpl;
      [by rewrite ?app_nil_r | reflexivity].
  - destruct (endswith (lower filename) ".glb").
    + destruct (import_gltf_raises (engine host filename)) as [e|]; simpl;
        [reflexivity|].
      destruct (armature_found (engine host filename)); simpl; [|reflexivity].
      destruct (rig_setup_raises (engine host filename)) as [e|]; simpl;
        [reflexivity|].
      rewrite Hloop. simpl.
      destruct (raw_assets_dir fs); simpl; [|reflexivity].
      destruct (export_raises (engine host filename)) as [e|]; simpl;
        [by rewrite ?app_nil_r | reflexivity].
    + simpl.
      destruct (armature_found (engine host filename)); simpl; [|reflexivity].
      destruct (rig_setup_raises (engine host filename)) as [e|]; simpl;
        [reflexivity|].
      rewrite Hloop. simpl.
      destruct (raw_assets_dir fs); simpl; [|reflexivity].
      destruct (export_raises (engine host filename)) as [e|]; simpl;
        [by rewrite ?app_nil_r | reflexivity].
Qed.

Lemma gathered_keys_in_table fs now filename k :
  k ∈ (animations (gather_current_state fs now filename)).*1 →
  is_Some (dict_get ANIMATION_TARGETS k).
Proof.
  rewrite animations_gathered. intros Hk.
  apply not_eq_None_Some. rewrite dict_get_None. intros Hnot. apply Hnot.
  eapply elem_of_sublist; [done | apply omap_resolve_keys].
Qed.

(** [process_model] does what its summary says. *)
Lemma process_model_run FORCE_REBUILD fs host filename w :
  process_model FORCE_REBUILD fs host filename w
  = let s := process_summary FORCE_REBUILD fs host filename (manifest w) in
    mkOut s.1 s.2
      (world_after (model_name_of filename) (state_of fs host filename) s.2 w).
Proof.
  unfold process_model, process_summary, model_name_of, state_of.
  unfold mbind, M_bind, bind, get_manifest, say, print, ret.
  cbn [result printed world].
  destruct (needs_update FORCE_REBUILD (splitext filename).1
              (gather_current_state fs (clock host filename) filename)
              (manifest w)) as [lines [|]]; cbn [fst snd negb result printed world].
  - rewrite build_run by apply gathered_keys_in_table. reflexivity.
  - reflexivity.
Qed.

Lemma needs_update_quiet force model_name current_state manifest :
  (needs_update force model_name current_state manifest).2 = false →
  (needs_update force model_name current_state manifest).1 = [].
Proof.
  unfold needs_update. destruct force; [done|].
  destruct (manifest !! model_name) as [last_build|]; [|done].
  do 2 (case_decide; [done|]).
  generalize (animations current_state). intros items.
  induction items as [|[k a] items IH]; [done|]. simpl.
  destruct (animations_of last_build !! k); [|done].
  case_decide; [done | apply IH].
Qed.

(** The world is left as it was unless the call returns [True], and then
    only the entry of the model is written. *)
Lemma process_model_world FORCE_REBUILD fs host filename w :
  world (process_model FORCE_REBUILD fs host filename w)
  = world_after (model_name_of filename) (state_of fs host filename)
      (result (process_model FORCE_REBUILD fs host filename w)) w.
Proof. by rewrite process_model_run. Qed.

Lemma process_model_kept FORCE_REBUILD fs host filename w :
  result (process_model FORCE_REBUILD fs host filename w) ≠ Ret true →
  world (process_model FORCE_REBUILD fs host filename w) = w.
Proof.
  rewrite process_model_world.
  destruct (result _) as [[|]|e]; simpl; done.
Qed.

Lemma process_model_committed FORCE_REBUILD fs host filename w :
  result (process_model FORCE_REBUILD fs host filename w) = Ret true →
  world (process_model FORCE_REBUILD fs host filename w)
  = commit (model_name_of filename) (state_of fs host filename) w.
Proof. rewrite process_model_world. by intros ->. Qed.

Lemma attach_lines_error fs run gender extra_angle items k a base_filename e :
  (k, a) ∈ items →
  dict_get ANIMATION_TARGETS k = Some base_filename →
  attach_raises run k (find_animation_file fs base_filename gender) extra_angle
  = Some e →
  ErrorProcessing k e ∈ attach_lines fs run gender extra_angle items.
Proof.
  intros Hin Hbase Hraise. unfold attach_lines.
  apply list_elem_of_In, in_flat_map. exists (k, a).
  split; [by apply list_elem_of_In|].
  cbn [fst]. rewrite Hbase, Hraise.
  apply list_elem_of_In, elem_of_app. right. left.
Qed.

(** ** Failures of one build *)

(** C2. A failed build is to leave its manifest entry as it was and is not
    to keep the successful build of another model from being committed.
    The first half holds for every call ([process_model_kept]).  The second
    fails when Blender raises in the export of [katinka.glb]: the exception
    leaves [process_model] and the loop; [leib], built just before, is in
    the dictionary but the manifest file is never written, and [marco],
    whose build would succeed, is never tried. *)
Theorem export_exception_aborts_batch :
  let o := run_batch false fs_male_library host_katinka_export_fails
             fresh_world in
  result o = Raise "RuntimeError: export failed"
  ∧ printed o = [StartPipeline;
                 Building "leib"; Added "walk"; Added "cast"; Exported "leib";
                 Building "katinka"; Added "walk"; Added "cast"]
  ∧ is_Some (manifest (world o) !! "leib")
  ∧ manifest (world o) !! "katinka" = None
  ∧ saves (world o) = 0
  ∧ build_log_file (world o) = NoLogFile
  ∧ (batch_history false fs_male_library host_katinka_export_fails
       fresh_world).*1 = ["leib.fbx"; "katinka.glb"]
  ∧ result (process_model false fs_male_library host_katinka_export_fails
              "marco.FBX" (world o)) = Ret true.
Proof. vm_compute. repeat split; eauto. Qed.

(** C3, refuted as stated: Blender raises while [walk] is attached for
    [leib]; the exception is caught, but the call does not fail: it returns
    [True]. *)
Lemma attach_exception_not_a_failure :
  attach_raises (engine host_walk_fails "leib.fbx") "walk"
    (find_animation_file fs_male_library "walk.fbx" "M") 0
  = Some "RuntimeError: import failed"
  ∧ printed (process_model false fs_male_library host_walk_fails "leib.fbx"
               fresh_world)
    = [Building "leib";
       ErrorProcessing "walk" "RuntimeError: import failed";
       Added "cast"; Exported "leib"]
  ∧ result (process_model false fs_male_library host_walk_fails "leib.fbx"
              fresh_world)
    = Ret true.
Proof. by vm_compute. Qed.

Lemma attach_lines_reported fs run gender extra_angle items k a base_filename :
  (k, a) ∈ items →
  dict_get ANIMATION_TARGETS k = Some base_filename →
  match attach_raises run k (find_animation_file fs base_filename gender)
          extra_angle
  with
  | None => Added k
  | Some e => ErrorProcessing k e
  end ∈ attach_lines fs run gender extra_angle items.
Proof.
  intros Hin Hbase. unfold attach_lines.
  apply list_elem_of_In, in_flat_map. exists (k, a).
  split; [by apply list_elem_of_In|].
  cbn [fst]. rewrite Hbase.
  apply list_elem_of_In, elem_of_app. right.
  destruct (attach_raises run k _ extra_angle); left.
Qed.

(** Whether an animation fails to attach has no part in how a build ends. *)
Lemma build_result_ignores_attach fs host filename model_name config gender
    current_state :
  (build_summary fs (without_attach_errors host) filename model_name config
     gender current_state).2
  = (build_summary fs host filename model_name config gender current_state).2.
Proof.
  unfold build_summary, import_answer.
  cbn [engine without_attach_errors clean_scene_raises import_fbx_raises
    import_gltf_raises armature_found rig_setup_raises export_raises].
  destruct (clean_scene_raises (engine host filename)); [reflexivity|].
  destruct (if endswith (lower filename) ".fbx"
            then import_fbx_raises (engine host filename)
            else if endswith (lower filename) ".glb"
                 then import_gltf_raises (engine host filename)
                 else None); [reflexivity|].
  destruct (armature_found (engine host filename)); [|reflexivity].
  destruct (rig_setup_raises (engine host filename)); [reflexivity|].
  destruct (raw_assets_dir fs); [|reflexivity].
  destruct (export_raises (engine host filename)); reflexivity.
Qed.

(** C3, amended. An exception of the model import is caught inside
    [process_model] and turned into a failed call: it returns [False], the
    world is untouched and the reason is printed.  An exception raised while
    an animation is attached is caught inside [process_model] as well, but
    it is only logged: every animation of the state still gets its line,
    the failed ones the error and the others [Added], and the call ends
    (result and world) as it would had no attachment raised.  Neither kind
    of exception leaves the call: when the scene reset, the rig set-up and
    the export return, [process_model] returns, whatever the import and the
    animation loop raise. *)
Theorem import_and_attach_exceptions_contained (force : bool) (fs : FS)
    (host : Host) (filename : string) (w : World) :
  clean_scene_raises (engine host filename) = None →
  rig_setup_raises (engine host filename) = None →
  export_raises (engine host filename) = None →
  (∃ updated,
     result (process_model force fs host filename w) = Ret updated)
  ∧ (∀ e, import_answer (engine host filename) filename = Some e →
       result (process_model force fs host filename w) = Ret false
       ∧ world (process_model force fs host filename w) = w
       ∧ ((needs_update force (model_name_of filename)
             (state_of fs host filename) (manifest w)).2 = true →
          printed (process_model force fs host filename w)
          = (needs_update force (model_name_of filename)
               (state_of fs host filename) (manifest w)).1
            ++ [Building (model_name_of filename); CouldNotImport e]))
  ∧ ((needs_update force (model_name_of filename)
        (state_of fs host filename) (manifest w)).2 = true →
     import_answer (engine host filename) filename = None →
     armature_found (engine host filename) = true →
     ∀ k a base_filename,
       (k, a) ∈ animations (state_of fs host filename) →
       dict_get ANIMATION_TARGETS k = Some base_filename →
       match attach_raises (engine host filename) k
               (find_animation_file fs base_filename
                  (gender_of (config_of (model_name_of filename))))
               (default 0%Z
                  (extra_arm_angle (config_of (model_name_of filename))))
       with
       | None => Added k
       | Some e => ErrorProcessing k e
       end ∈ printed (process_model force fs host filename w))
  ∧ result (process_model force fs host filename w)
    = result (process_model force fs (without_attach_errors host) filename w)
  ∧ world (process_model force fs host filename w)
    = world (process_model force fs (without_attach_errors host) filename w).
Proof.
  intros Hclean Hrig Hexport.
  assert (Hquiet : result (process_model force fs host filename w)
            = result (process_model force fs (without_attach_errors host)
                        filename w)
          ∧ world (process_model force fs host filename w)
            = world (process_model force fs (without_attach_errors host)
                       filename w)).
  { rewrite !process_model_run. cbn zeta. cbn [result world].
    change (state_of fs (without_attach_errors host) filename)
      with (state_of fs host filename).
    assert (Hsame : (process_summary force fs (without_attach_errors host)
                       filename (manifest w)).2
                    = (process_summary force fs host filename (manifest w)).2).
    { unfold process_summary.
      change (state_of fs (without_attach_errors host) filename)
        with (state_of fs host filename).
      destruct (needs_update force (model_name_of filename)
                  (state_of fs host filename) (manifest w)) as [lines [|]];
        cbn [fst snd negb]; [|done].
      apply build_result_ignores_attach. }
    by rewrite Hsame. }
  split; [|split; [|split; [|exact Hquiet]]].
  - rewrite process_model_run. unfold process_summary, build_summary.
    rewrite Hclean, Hrig, Hexport. cbn zeta.
    destruct (needs_update force (model_name_of filename)
                (state_of fs host filename) (manifest w)) as [lines [|]];
      cbn [fst snd negb result]; [|by exists false].
    destruct (import_answer (engine host filename) filename) as [e|];
      [by exists false|].
    destruct (armature_found (engine host filename)); cbn [negb snd];
      [|by exists false].
    destruct (raw_assets_dir fs); cbn [negb snd]; eauto.
  - intros e Himport.
    rewrite process_model_run. unfold process_summary, build_summary.
    rewrite Hclean, Himport. cbn zeta.
    destruct (needs_update force (model_name_of filename)
                (state_of fs host filename) (manifest w)) as [lines [|]];
      cbn [fst snd negb result world printed world_after]; by repeat split.
  - intros Hstale Himport Harm k a base_filename Hin Hbase.
    pose proof (attach_lines_reported fs (engine host filename)
                  (gender_of (config_of (model_name_of filename)))
                  (default 0%Z
                     (extra_arm_angle (config_of (model_name_of filename))))
                  _ k a base_filename Hin Hbase) as Hline.
    rewrite process_model_run. unfold process_summary, build_summary.
    rewrite Hclean, Himport, Harm, Hrig, Hexport, Hstale.
    cbn [negb fst snd printed].
    destruct (raw_assets_dir fs); cbn [negb fst snd printed];
      rewrite elem_of_app; right; right; rewrite elem_of_app; by left.
Qed.

(** Attaching [walk] raises for [katinka]: the error is logged, [cast] is
    still attached, and the call returns [True] as with a Blender that
    attaches everything. *)
Lemma import_and_attach_exceptions_contained_witness :
  attach_raises (engine host_walk_fails "katinka.glb") "walk"
    (find_animation_file fs_male_library "walk.fbx" "F") 0
  = Some "RuntimeError: import failed"
  ∧ ErrorProcessing "walk" "RuntimeError: import failed"
      ∈ printed (process_model false fs_male_library host_walk_fails
                   "katinka.glb" fresh_world)
  ∧ Added "cast"
      ∈ printed (process_model false fs_male_library host_walk_fails
                   "katinka.glb" fresh_world)
  ∧ result (process_model false fs_male_library host_walk_fails
              "katinka.glb" fresh_world)
    = result (process_model false fs_male_library
                (without_attach_errors host_walk_fails) "katinka.glb"
                fresh_world)
  ∧ result (process_model false fs_male_library host_walk_fails
              "katinka.glb" fresh_world) = Ret true.
Proof.
  pose proof (import_and_attach_exceptions_contained false fs_male_library
                host_walk_fails "katinka.glb" fresh_world
                eq_refl eq_refl eq_refl)
    as (_ & _ & Hlines & Hresult & _).
  split; [reflexivity|].
  split.
  { apply (Hlines eq_refl eq_refl eq_refl "walk"
             {| file := "M_walk.fbx"; mtime := 5 |} "walk.fbx");
      [left | reflexivity]. }
  split.
  { apply (Hlines eq_refl eq_refl eq_refl "cast"
             {| file := "M_cast.fbx"; mtime := 7 |} "cast.fbx");
      [right; left | reflexivity]. }
  split; [exact Hresult | by vm_compute].
Defined.

Example import_exception_is_a_failure :
  process_model false fs_male_library host_import_fails "leib.fbx" fresh_world
  = mkOut [Building "leib"; CouldNotImport "RuntimeError: cannot read file"]
      (Ret false) fresh_world.
Proof. by vm_compute. Qed.

(** C4, refuted as stated: Blender raises while [walk] is attached for
    [katinka]; the call still returns [True] and writes the manifest entry
    of [katinka], which was absent before. *)
Lemma attach_exception_still_built :
  ErrorProcessing "walk" "RuntimeError: import failed"
    ∈ printed (process_model false fs_male_library host_walk_fails
                 "katinka.glb" fresh_world)
  ∧ result (process_model false fs_male_library host_walk_fails
              "katinka.glb" fresh_world) = Ret true
  ∧ manifest fresh_world !! "katinka" = None
  ∧ manifest (world (process_model false fs_male_library host_walk_fails
                       "katinka.glb" fresh_world)) !! "katinka"
    = Some (stored (state_of fs_male_library host_walk_fails "katinka.glb")).
Proof.
  split; [|by vm_compute].
  apply (bool_decide_unpack _). by vm_compute.
Qed.

(** C4, amended. When Blender raises while a resolved animation is attached,
    the exception is caught inside the animation loop and printed, and the
    build goes on to the export.  If the export directory exists and the
    export returns, the call returns [True] and the manifest entry is
    overwritten with the current state; if the export directory is missing,
    the call returns [False] and the world is untouched. *)
Theorem attach_exception_logged_build_goes_on (force : bool) (fs : FS)
    (host : Host) (filename : string) (w : World)
    (k : string) (a : AnimInfo) (base_filename e : string) :
  (needs_update force (model_name_of filename) (state_of fs host filename)
     (manifest w)).2 = true →
  clean_scene_raises (engine host filename) = None →
  import_answer (engine host filename) filename = None →
  armature_found (engine host filename) = true →
  rig_setup_raises (engine host filename) = None →
  (k, a) ∈ animations (state_of fs host filename) →
  dict_get ANIMATION_TARGETS k = Some base_filename →
  attach_raises (engine host filename) k
    (find_animation_file fs base_filename
       (gender_of (config_of (model_name_of filename))))
    (default 0%Z (extra_arm_angle (config_of (model_name_of filename))))
  = Some e →
  (raw_assets_dir fs = true → export_raises (engine host filename) = None →
     ErrorProcessing k e ∈ printed (process_model force fs host filename w)
     ∧ result (process_model force fs host filename w) = Ret true
     ∧ world (process_model force fs host filename w)
       = commit (model_name_of filename) (state_of fs host filename) w)
  ∧ (raw_assets_dir fs = false →
     ErrorProcessing k e ∈ printed (process_model force fs host filename w)
     ∧ result (process_model force fs host filename w) = Ret false
     ∧ world (process_model force fs host filename w) = w).
Proof.
  intros Hstale Hclean Himport Harm Hrig Hin Hbase Hraise.
  pose proof (attach_lines_error fs (engine host filename) _ _ _ k a
                base_filename e Hin Hbase Hraise) as Hline.
  rewrite process_model_run. unfold process_summary, build_summary.
  rewrite Hclean, Himport, Harm, Hrig, Hstale. cbn [negb fst snd].
  split.
  - intros -> ->. cbn [negb fst snd printed result world world_after].
    split; [|done].
    rewrite elem_of_app. right. right. rewrite elem_of_app. by left.
  - intros ->. cbn [negb fst snd printed result world world_after].
    split; [|done].
    rewrite elem_of_app. right. right. rewrite elem_of_app. by left.
Qed.

Lemma attach_exception_logged_build_goes_on_witness :
  ErrorProcessing "walk" "RuntimeError: import failed"
    ∈ printed (process_model false fs_male_library host_walk_fails
                 "katinka.glb" fresh_world)
  ∧ result (process_model false fs_male_library host_walk_fails
              "katinka.glb" fresh_world) = Ret true
  ∧ world (process_model false fs_male_library host_walk_fails
             "katinka.glb" fresh_world)
    = commit "katinka"
        (state_of fs_male_library host_walk_fails "katinka.glb") fresh_world.
Proof.
  refine (proj1 (attach_exception_logged_build_goes_on false fs_male_library
                   host_walk_fails "katinka.glb" fresh_world
                   "walk" {| file := "M_walk.fbx"; mtime := 5 |} "walk.fbx"
                   "RuntimeError: import failed" _ _ _ _ _ _ _ _) _ _);
    try reflexivity.
  left.
Defined.

(** ** The batch *)

Local Arguments process_all : simpl never.
Local Arguments history : simpl never.

Lemma process_all_cons F fs host f rest u w :
  process_all F fs host (f :: rest) u w
  = let o := process_model F fs host f w in
    match result o with
    | Ret updated =>
        let o' := process_all F fs host rest (if updated then true else u)
                    (world o) in
        mkOut (printed o ++ printed o') (result o') (world o')
    | Raise e => mkOut (printed o) (Raise e) (world o)
    end.
Proof. reflexivity. Qed.

Lemma history_cons F fs host f rest w :
  history F fs host (f :: rest) w
  = (f, process_model F fs host f w)
    :: match result (process_model F fs host f w) with
       | Ret _ => history F fs host rest (world (process_model F fs host f w))
       | Raise _ => []
       end.
Proof. reflexivity. Qed.

Lemma process_model_disk F fs host f w :
  build_log_file (world (process_model F fs host f w)) = build_log_file w
  ∧ saves (world (process_model F fs host f w)) = saves w.
Proof.
  rewrite process_model_world.
  by destruct (result (process_model F fs host f w)) as [[|]|e].
Qed.

(** The loop does not touch the manifest file, and the flag it returns says
    whether a call returned [True]. *)
Lemma process_all_run F fs host files u w :
  build_log_file (world (process_all F fs host files u w)) = build_log_file w
  ∧ saves (world (process_all F fs host files u w)) = saves w
  ∧ ∀ u', result (process_all F fs host files u w) = Ret u' →
          u' = u || any_built (history F fs host files w).
Proof.
  revert u w. induction files as [|f rest IH]; intros u w.
  - repeat split. intros u' [= <-]. by rewrite orb_false_r.
  - rewrite process_all_cons, history_cons. cbn zeta.
    destruct (process_model_disk F fs host f w) as [Hlog Hsaves].
    unfold any_built. cbn [existsb snd]. unfold returned_true at 1.
    destruct (result (process_model F fs host f w)) as [updated|e];
      cbn [world result]; [|done].
    destruct (IH (if updated then true else u)
                (world (process_model F fs host f w))) as (Hlog' & Hsaves' & Hflag).
    rewrite Hlog', Hsaves'. repeat split; [done..|].
    intros u' Hu'. rewrite (Hflag u' Hu'). unfold any_built.
    destruct updated; cbn [orb]; [by rewrite orb_true_r | done].
Qed.

Lemma out_eta {A} (o : Out A) : mkOut (printed o) (result o) (world o) = o.
Proof. by destruct o. Qed.

Lemma bind_run {A B} (m : M A) (k : A → M B) w :
  (m ≫= k) w
  = match result (m w) with
    | Ret a =>
        mkOut (printed (m w) ++ printed (k a (world (m w))))
          (result (k a (world (m w)))) (world (k a (world (m w))))
    | Raise e => mkOut (printed (m w)) (Raise e) (world (m w))
    end.
Proof. reflexivity. Qed.

Lemma bind_print {B} l (k : () → M B) w :
  (print l ≫= k) w
  = mkOut (l :: printed (k tt w)) (result (k tt w)) (world (k tt w)).
Proof. reflexivity. Qed.

Lemma bind_load_manifest {B} (k : gmap string Entry → M B) w :
  (load_manifest ≫= k) w = k (manifest (loaded w)) w.
Proof.
  rewrite bind_run. unfold load_manifest, loaded.
  destruct (build_log_file w); apply out_eta.
Qed.

Lemma bind_bind_manifest {B} (k : () → M B) w :
  (bind_manifest (manifest (loaded w)) ≫= k) w = k tt (loaded w).
Proof. rewrite bind_run. apply out_eta. Qed.

(** [run_batch], step by step. *)
Lemma run_batch_run F fs host w :
  run_batch F fs host w
  = match source_dir fs with
    | None => mkOut [StartPipeline; SourceDirNotFound] (Ret tt) (loaded w)
    | Some _ =>
        match model_files fs with
        | [] => mkOut [StartPipeline; NoModelsFound] (Ret tt) (loaded w)
        | _ :: _ =>
            let o := process_all F fs host (model_files fs) false (loaded w) in
            match result o with
            | Raise e => mkOut (StartPipeline :: printed o) (Raise e) (world o)
            | Ret updates_made =>
                match final_clean_scene_raises host with
                | Some e =>
                    mkOut (StartPipeline :: printed o) (Raise e) (world o)
                | None =>
                    if updates_made
                    then mkOut (StartPipeline
                                  :: printed o ++ [ManifestUpdated; Done])
                           (Ret tt) (saved (world o))
                    else mkOut (StartPipeline
                                  :: printed o ++ [EverythingUpToDate; Done])
                           (Ret tt) (world o)
                end
            end
        end
    end.
Proof.
  unfold run_batch, model_files.
  rewrite bind_print, bind_load_manifest, bind_bind_manifest.
  destruct (source_dir fs) as [entries|]; [|reflexivity].
  destruct (filter (λ f, is_model_file f = true) entries.*1) as [|f rest];
    [reflexivity|].
  remember (f :: rest) as files.
  rewrite bind_run. cbn zeta.
  destruct (result (process_all F fs host files false (loaded w)))
    as [updates_made|e]; cbn [result world printed]; [|reflexivity].
  rewrite bind_run.
  destruct (final_clean_scene_raises host) as [e|];
    cbn [bpy result world printed ret raise]; [by rewrite app_nil_r|].
  destruct updates_made; reflexivity.
Qed.

Lemma any_built_true calls :
  any_built calls = true ↔ ∃ f c, (f, c) ∈ calls ∧ result c = Ret true.
Proof.
  unfold any_built. rewrite existsb_exists. split.
  - intros ([f c] & Hin & Hc). exists f, c. split; [by apply list_elem_of_In|].
    unfold returned_true in Hc. simpl in Hc.
    by destruct (result c) as [[|]|].
  - intros (f & c & Hin & Hc). exists (f, c). split; [by apply list_elem_of_In|].
    unfold returned_true. simpl. by rewrite Hc.
Qed.

Lemma any_built_false calls :
  any_built calls = false ↔ ∀ f c, (f, c) ∈ calls → result c ≠ Ret true.
Proof.
  rewrite <- not_true_iff_false, any_built_true. split.
  - intros Hnone f c Hin Hc. apply Hnone. by exists f, c.
  - intros Hall (f & c & Hin & Hc). by apply (Hall f c).
Qed.

(** A batch calls [save_manifest] at most once.  It is called only if a
    call of [process_model] returned [True], and then the file holds the
    dictionary; a batch that runs to its end calls it exactly when a call
    returned [True]; and when no call returned [True] (every model skipped
    or failed) the file is not written at all. *)
Lemma manifest_saved_at_most_once (force : bool) (fs : FS) (host : Host)
    (w : World) :
  (saves (world (run_batch force fs host w)) = saves w
   ∨ saves (world (run_batch force fs host w)) = S (saves w))
  ∧ (saves (world (run_batch force fs host w)) = S (saves w) →
     (∃ f c, (f, c) ∈ batch_history force fs host w ∧ result c = Ret true)
     ∧ build_log_file (world (run_batch force fs host w))
       = LogFileWith (manifest (world (run_batch force fs host w))))
  ∧ (result (run_batch force fs host w) = Ret tt →
     (∃ f c, (f, c) ∈ batch_history force fs host w ∧ result c = Ret true) →
     saves (world (run_batch force fs host w)) = S (saves w))
  ∧ ((∀ f c, (f, c) ∈ batch_history force fs host w → result c ≠ Ret true) →
     saves (world (run_batch force fs host w)) = saves w
     ∧ build_log_file (world (run_batch force fs host w)) = build_log_file w).
Proof.
  rewrite <- any_built_true, <- any_built_false.
  rewrite run_batch_run. unfold batch_history.
  destruct (process_all_run force fs host (model_files fs) false (loaded w))
    as (Hlog & Hsaves & Hflag).
  simpl in Hlog, Hsaves.
  destruct (source_dir fs) as [entries|] eqn:Hdir.
  2: { unfold model_files. rewrite Hdir. simpl.
       repeat split; auto; intros; solve [lia | done]. }
  destruct (model_files fs) as [|f rest] eqn:Hfiles.
  { simpl. repeat split; auto; intros; solve [lia | done]. }
  cbn zeta.
  destruct (result (process_all force fs host (f :: rest) false (loaded w)))
    as [updates_made|e]; cbn [world result].
  2: { rewrite Hlog, Hsaves. repeat split; auto; intros; solve [lia | done]. }
  specialize (Hflag updates_made eq_refl). rewrite orb_false_l in Hflag.
  destruct (final_clean_scene_raises host) as [e|]; cbn [world result].
  { rewrite Hlog, Hsaves. repeat split; auto; intros; solve [lia | done]. }
  destruct updates_made; cbn [world result saved saves build_log_file manifest];
    rewrite ?Hlog, ?Hsaves, <- Hflag.
  - repeat split; auto; intros; solve [lia | done].
  - repeat split; auto; intros; solve [lia | done].
Qed.

(** C8. The manifest file is to be written exactly when a call returned
    [True].  It is not: when Blender raises in the export of [katinka.glb]
    (line 284, outside any [try]) the call for [leib.fbx] has returned
    [True], and the batch ends in the exception without having written the
    file.  The same happens when every call has returned [True] and Blender
    raises in the scene reset of line 311, which stands between the loop and
    [save_manifest]: three models are built, their entries are in the
    dictionary, and the file is not written. *)
Theorem built_but_manifest_not_written :
  let calls := batch_history false fs_male_library host_katinka_export_fails
                 fresh_world in
  let o := run_batch false fs_male_library host_katinka_export_fails
             fresh_world in
  let calls' := batch_history false fs_male_library host_final_clean_fails
                  fresh_world in
  let o' := run_batch false fs_male_library host_final_clean_fails
              fresh_world in
  (λ call, (call.1, result call.2)) <$> calls
  = [("leib.fbx", Ret true);
     ("katinka.glb", Raise "RuntimeError: export failed")]
  ∧ any_built calls = true
  ∧ result o = Raise "RuntimeError: export failed"
  ∧ saves (world o) = 0
  ∧ build_log_file (world o) = NoLogFile
  ∧ (λ call, (call.1, result call.2)) <$> calls'
    = [("leib.fbx", Ret true); ("katinka.glb", Ret true);
       ("marco.FBX", Ret true)]
  ∧ result o' = Raise "RuntimeError: context is incorrect"
  ∧ is_Some (manifest (world o') !! "leib")
  ∧ is_Some (manifest (world o') !! "katinka")
  ∧ is_Some (manifest (world o') !! "marco")
  ∧ saves (world o') = 0
  ∧ build_log_file (world o') = NoLogFile.
Proof. vm_compute. repeat split; eauto. Qed.

Example first_batch_saves_once :
  saves (world (run_batch false fs_male_library host_ok fresh_world)) = 1.
Proof. by vm_compute. Qed.

Example second_batch_does_not_save :
  saves (world (run_batch false fs_male_library host_ok_later
                  (world (run_batch false fs_male_library host_ok
                            fresh_world)))) = 1.
Proof. by vm_compute. Qed.

(** ** A second run *)

Lemma needs_update_local force model_name current_state
    (m m' : gmap string Entry) :
  m !! model_name = m' !! model_name →
  needs_update force model_name current_state m
  = needs_update force model_name current_state m'.
Proof. intros Hsame. unfold needs_update. by rewrite Hsame. Qed.

(** The staleness test does not read [build_date] or [source_file]. *)
Lemma needs_update_same_inputs force model_name (s s' : State)
    (m : gmap string Entry) :
  source_mtime s = source_mtime s' →
  config s = config s' →
  animations s = animations s' →
  needs_update force model_name s m = needs_update force model_name s' m.
Proof. intros Hsrc Hcfg Hanims. unfold needs_update. by rewrite Hsrc, Hcfg, Hanims. Qed.

Lemma process_summary_local force fs host filename (m m' : gmap string Entry) :
  m !! model_name_of filename = m' !! model_name_of filename →
  process_summary force fs host filename m
  = process_summary force fs host filename m'.
Proof.
  intros Hsame. unfold process_summary.
  by rewrite (needs_update_local _ _ _ m m' Hsame).
Qed.

(** A call writes no entry but that of its own model. *)
Lemma process_model_frame force fs host filename w k :
  k ≠ model_name_of filename →
  manifest (world (process_model force fs host filename w)) !! k
  = manifest w !! k.
Proof.
  intros Hne. rewrite process_model_world.
  destruct (result (process_model force fs host filename w)) as [[|]|e];
    simpl; [|done..].
  by rewrite lookup_insert_ne.
Qed.

Lemma process_model_own_entry force fs host filename w :
  manifest (world (process_model force fs host filename w))
    !! model_name_of filename
  = match (process_summary force fs host filename (manifest w)).2 with
    | Ret true => Some (stored (state_of fs host filename))
    | _ => manifest w !! model_name_of filename
    end.
Proof.
  rewrite process_model_run. cbn zeta. cbn [world].
  destruct (process_summary force fs host filename (manifest w)).2
    as [[|]|e]; simpl; [|done..].
  by rewrite lookup_insert_eq.
Qed.

Lemma stored_animations_fold_fresh (d : list (string * AnimInfo))
    (m : gmap string AnimEntry) k :
  k ∉ d.*1 →
  foldl (λ m kv, <[kv.1 := stored_anim kv.2]> m) m d !! k = m !! k.
Proof.
  revert m. induction d as [|[k' a'] d IH]; intros m Hk; [done|].
  simpl in *. apply not_elem_of_cons in Hk as [Hne Hk].
  rewrite IH by done. by rewrite lookup_insert_ne.
Qed.

Lemma stored_animations_lookup (d : list (string * AnimInfo)) k a :
  NoDup d.*1 → (k, a) ∈ d →
  stored_animations d !! k = Some (stored_anim a).
Proof.
  unfold stored_animations. generalize (∅ : gmap string AnimEntry).
  induction d as [|[k' a'] d IH]; intros m Hnd Hin.
  - by apply elem_of_nil in Hin.
  - simpl in *. apply NoDup_cons in Hnd as [Hfresh Hnd].
    apply elem_of_cons in Hin as [[= -> ->]|Hin].
    + rewrite stored_animations_fold_fresh by done. apply lookup_insert_eq.
    + by apply IH.
Qed.

(** A state is up to date against itself as stored, and against any stored
    state with the same time stamps, configuration and animations. *)
Lemma needs_update_against_stored model_name (s s' : State)
    (m : gmap string Entry) :
  NoDup (animations s').*1 →
  source_mtime s = source_mtime s' →
  config s = config s' →
  animations s = animations s' →
  m !! model_name = Some (stored s') →
  needs_update false model_name s m = ([], false).
Proof.
  intros Hnd Hsrc Hcfg Hanims Hentry.
  apply (needs_update_up_to_date _ _ _ (stored s')); [done|..].
  - simpl. by rewrite Hsrc.
  - simpl. by rewrite Hcfg.
  - intros k a Hin. apply matching_slot_fresh.
    exists (stored_anim a). split; [|done].
    unfold animations_of. simpl. rewrite Hanims in Hin.
    by apply stored_animations_lookup.
Qed.

Lemma process_all_frame force fs host files u w k :
  k ∉ model_name_of <$> files →
  manifest (world (process_all force fs host files u w)) !! k
  = manifest w !! k.
Proof.
  revert u w. induction files as [|f rest IH]; intros u w Hk; [done|].
  rewrite fmap_cons in Hk. apply not_elem_of_cons in Hk as [Hne Hk].
  rewrite process_all_cons. cbn zeta.
  destruct (result (process_model force fs host f w)) as [updated|e] eqn:Hres;
    cbn [world].
  - rewrite IH by done. by apply process_model_frame.
  - by apply process_model_frame.
Qed.

(** With distinct model names, every call of the loop sees, under its own
    name, the entry the manifest had when the loop started. *)
Lemma history_calls force fs host files w f c :
  NoDup (model_name_of <$> files) →
  (f, c) ∈ history force fs host files w →
  f ∈ files
  ∧ (printed c, result c) = process_summary force fs host f (manifest w).
Proof.
  revert w. induction files as [|f' rest IH]; intros w Hnd Hin.
  { by apply elem_of_nil in Hin. }
  rewrite fmap_cons in Hnd. apply NoDup_cons in Hnd as [Hfresh Hnd].
  rewrite history_cons in Hin. apply elem_of_cons in Hin as [[= -> ->]|Hin].
  - split; [left|]. rewrite process_model_run. cbn zeta. cbn [printed result].
    by destruct (process_summary force fs host f' (manifest w)).
  - destruct (result (process_model force fs host f' w)) as [updated|e];
      [|by apply elem_of_nil in Hin].
    destruct (IH _ Hnd Hin) as [Hf Hc]. split; [by right|].
    rewrite Hc. apply process_summary_local, process_model_frame.
    intros Heq. apply Hfresh. rewrite <- Heq. by apply list_elem_of_fmap_2.
Qed.

(** When the loop runs to its end, every file was processed and its call
    returned; the entry of each model is the gathered state if its call
    returned [True], and the old entry otherwise. *)
Lemma process_all_completed force fs host files u w u' f :
  NoDup (model_name_of <$> files) →
  result (process_all force fs host files u w) = Ret u' →
  f ∈ files →
  (∃ c, (f, c) ∈ history force fs host files w ∧ ∃ b, result c = Ret b)
  ∧ manifest (world (process_all force fs host files u w)) !! model_name_of f
    = match (process_summary force fs host f (manifest w)).2 with
      | Ret true => Some (stored (state_of fs host f))
      | _ => manifest w !! model_name_of f
      end.
Proof.
  revert u w. induction files as [|f' rest IH]; intros u w Hnd Hres Hf.
  { by apply elem_of_nil in Hf. }
  rewrite fmap_cons in Hnd. apply NoDup_cons in Hnd as [Hfresh Hnd].
  rewrite process_all_cons in *. rewrite history_cons. cbn zeta in *.
  destruct (result (process_model force fs host f' w)) as [updated|e] eqn:Hcall;
    cbn [result world] in *; [|done].
  apply elem_of_cons in Hf as [->|Hf].
  - split.
    + exists (process_model force fs host f' w). split; [left | by exists updated].
    + rewrite process_all_frame by done. apply process_model_own_entry.
  - destruct (IH _ _ Hnd Hres Hf) as [(c & Hin & Hret) Hentry]. split.
    + exists c. split; [by right | done].
    + rewrite Hentry.
      assert (Hne : model_name_of f ≠ model_name_of f').
      { intros Heq. apply Hfresh. rewrite <- Heq. by apply list_elem_of_fmap_2. }
      rewrite (process_summary_local force fs host f
                 (manifest (world (process_model force fs host f' w)))
                 (manifest w)) by (by apply process_model_frame).
      destruct (process_summary force fs host f (manifest w)).2 as [[|]|e];
        [done | by apply process_model_frame..].
Qed.

(** A loop in which no call would return [True] or raise changes nothing. *)
Lemma process_all_no_build force fs host files u w :
  (∀ f, f ∈ files →
        (process_summary force fs host f (manifest w)).2 = Ret false) →
  result (process_all force fs host files u w) = Ret u
  ∧ world (process_all force fs host files u w) = w.
Proof.
  revert u. induction files as [|f rest IH]; intros u Hall; [done|].
  rewrite process_all_cons. cbn zeta.
  assert (Hcall : result (process_model force fs host f w) = Ret false).
  { rewrite process_model_run. apply Hall. left. }
  assert (Hworld : world (process_model force fs host f w) = w).
  { apply process_model_kept. by rewrite Hcall. }
  rewrite Hcall, Hworld. cbn [result world].
  apply IH. intros f' Hf'. apply Hall. by right.
Qed.

(** Such a loop calls [process_model] for every file. *)
Lemma history_no_build force fs host files w :
  (∀ f, f ∈ files →
        (process_summary force fs host f (manifest w)).2 = Ret false) →
  (history force fs host files w).*1 = files.
Proof.
  induction files as [|f rest IH]; intros Hall; [done|].
  rewrite history_cons.
  assert (Hcall : result (process_model force fs host f w) = Ret false).
  { rewrite process_model_run. apply Hall. left. }
  assert (Hworld : world (process_model force fs host f w) = w).
  { apply process_model_kept. by rewrite Hcall. }
  rewrite Hcall, Hworld. cbn [fmap list_fmap fst].
  change (list_fmap _ _ fst ?l) with (l.*1).
  rewrite IH; [done|]. intros f' Hf'. apply Hall. by right.
Qed.

(** Only the skip branch prints [Skipping]. *)
Lemma check_animations_no_skipping items last_build n :
  Skipping n ∉ (check_animations items last_build).1.
Proof.
  induction items as [|[k a] items IH]; simpl; [apply not_elem_of_nil|].
  destruct (animations_of last_build !! k).
  - case_decide; [|done]. simpl. by intros [=]%list_elem_of_singleton.
  - simpl. by intros [=]%list_elem_of_singleton.
Qed.

Lemma needs_update_no_skipping force model_name current_state manifest n :
  Skipping n ∉ (needs_update force model_name current_state manifest).1.
Proof.
  unfold needs_update. destruct force; [apply not_elem_of_nil|].
  destruct (manifest !! model_name) as [last_build|]; [|apply not_elem_of_nil].
  case_decide; [by intros [=]%list_elem_of_singleton|].
  case_decide; [by intros [=]%list_elem_of_singleton|].
  apply check_animations_no_skipping.
Qed.

Lemma attach_lines_no_skipping fs run gender extra_angle items n :
  Skipping n ∉ attach_lines fs run gender extra_angle items.
Proof.
  unfold attach_lines. intros Hin.
  apply list_elem_of_In, in_flat_map in Hin as ([k a] & _ & Hin).
  apply list_elem_of_In in Hin. simpl in Hin.
  destruct (dict_get ANIMATION_TARGETS k) as [base|];
    [|by apply elem_of_nil in Hin].
  apply elem_of_app in Hin as [Hin|Hin].
  - unfold fix_arms_lines in Hin.
    destruct (fix_arms_action run k _ extra_angle);
      [|by apply elem_of_nil in Hin].
    destruct (0 <? extra_angle)%Z; [|by apply elem_of_nil in Hin].
    case_decide; [by apply elem_of_nil in Hin|].
    by apply list_elem_of_singleton in Hin.
  - destruct (attach_raises run k _ extra_angle);
      by apply list_elem_of_singleton in Hin.
Qed.

Lemma build_summary_no_skipping fs host filename model_name config gender
    current_state n :
  Skipping n ∉ (build_summary fs host filename model_name config gender
                  current_state).1.
Proof.
  unfold build_summary.
  pose proof (attach_lines_no_skipping fs (engine host filename) gender
                (default 0%Z (extra_arm_angle config))
                (animations current_state) n) as Hloop.
  destruct (clean_scene_raises _); simpl;
    [by intros [=]%list_elem_of_singleton|].
  destruct (import_answer _ _); simpl.
  { rewrite !elem_of_cons. intros [?|[?|?%elem_of_nil]]; done. }
  destruct (armature_found _); simpl.
  2: { rewrite !elem_of_cons. intros [?|[?|?%elem_of_nil]]; done. }
  destruct (rig_setup_raises _); simpl;
    [by intros [=]%list_elem_of_singleton|].
  destruct (raw_assets_dir fs); simpl.
  2: { rewrite elem_of_cons, elem_of_app, list_elem_of_singleton.
       intros [?|[?|?]]; done. }
  destruct (export_raises _); simpl.
  - rewrite elem_of_cons. intros [?|?]; done.
  - rewrite elem_of_cons, elem_of_app, list_elem_of_singleton.
    intros [?|[?|?]]; done.
Qed.

Lemma skipping_printed force fs host filename m :
  Skipping (model_name_of filename)
    ∈ (process_summary force fs host filename m).1 →
  (needs_update force (model_name_of filename) (state_of fs host filename) m).2
  = false.
Proof.
  unfold process_summary.
  destruct (needs_update force (model_name_of filename)
              (state_of fs host filename) m) as [lines [|]] eqn:Hcheck;
    [|done].
  simpl. rewrite elem_of_app. intros [Hin|Hin].
  - exfalso. eapply needs_update_no_skipping. by rewrite Hcheck.
  - exfalso. by eapply build_summary_no_skipping.
Qed.

Lemma process_summary_skip force fs host filename m :
  (needs_update force (model_name_of filename) (state_of fs host filename) m).2
  = false →
  process_summary force fs host filename m
  = ([Skipping (model_name_of filename)], Ret false).
Proof.
  intros Hfresh. unfold process_summary.
  rewrite Hfresh, (needs_update_quiet _ _ _ _ Hfresh). reflexivity.
Qed.

(** C7. The snapshot (source time stamp, configuration, animations) that is
    gathered for a file is a function of what resolution reads and of
    nothing else.  Two gatherings give the same snapshot exactly when the
    source file has the same time stamp and every slot of the table resolves
    to a file of the same name and time stamp, or to none, in both.  So two
    gatherings with no change to the file system in between give identical
    snapshots, whatever the clock reads; and gathering has no effect of its
    own: a call that stops after it, because the model is up to date, leaves
    the world as it was. *)
Theorem snapshot_determined_by_files (fs fs' : FS)
    (now now' filename : string) :
  (snapshot_of (gather_current_state fs now filename)
   = snapshot_of (gather_current_state fs' now' filename)
   ↔ get_file_timestamp fs (InSourceDir filename)
     = get_file_timestamp fs' (InSourceDir filename)
     ∧ ∀ target_name base_filename,
         (target_name, base_filename) ∈ ANIMATION_TARGETS →
         resolved fs (gender_of (config_of (splitext filename).1))
           base_filename
         = resolved fs' (gender_of (config_of (splitext filename).1))
             base_filename)
  ∧ snapshot_of (gather_current_state fs now filename)
    = snapshot_of (gather_current_state fs now' filename)
  ∧ source_file (gather_current_state fs now filename)
    = source_file (gather_current_state fs now' filename)
  ∧ ∀ force host w,
      (needs_update force (model_name_of filename)
         (state_of fs host filename) (manifest w)).2 = false →
      world (process_model force fs host filename w) = w.
Proof.
  split; [|split; [done|split; [done|]]].
  - unfold snapshot_of. split.
    + intros Heq.
      assert (Hanims : animations (gather_current_state fs now filename)
                       = animations (gather_current_state fs' now' filename))
        by exact (f_equal snd Heq).
      split; [exact (f_equal (λ t, t.1.1) Heq)|].
      intros target_name base_filename Hrow.
      rewrite <- (gathered_slot_resolved fs now filename target_name) by done.
      rewrite <- (gathered_slot_resolved fs' now' filename target_name) by done.
      by rewrite Hanims.
    + intros [Hsrc Hslots].
      assert (Hanims : animations (gather_current_state fs now filename)
                       = animations (gather_current_state fs' now' filename)).
      { rewrite !animations_gathered. apply omap_agree.
        intros [target_name base_filename] Hrow.
        rewrite !resolve_one_resolved. cbn [fst snd].
        by rewrite (Hslots target_name base_filename Hrow). }
      rewrite Hanims.
      change (source_mtime (gather_current_state fs now filename))
        with (get_file_timestamp fs (InSourceDir filename)).
      change (source_mtime (gather_current_state fs' now' filename))
        with (get_file_timestamp fs' (InSourceDir filename)).
      by rewrite Hsrc.
  - intros force host w Hfresh.
    rewrite process_model_run, process_summary_skip by done. reflexivity.
Qed.

Example snapshot_same_elsewhere :
  snapshot_of (gather_current_state fs_male_library
                 "2024-05-01 10:00:00" "katinka.glb")
  = snapshot_of (gather_current_state fs_male_library_elsewhere
                   "2025-01-01 00:00:00" "katinka.glb").
Proof. by vm_compute. Qed.

Example snapshot_changes_with_library :
  snapshot_of (gather_current_state fs_male_library "" "katinka.glb")
  ≠ snapshot_of (gather_current_state fs_cast_removed "" "katinka.glb").
Proof. by vm_compute. Qed.

(** A model whose call returned [True] or was skipped in the first run is
    skipped by a later call that finds the entry the first run left. *)
Lemma second_call_skips fs host host2 filename (m0 m1 : gmap string Entry) :
  m1 !! model_name_of filename
  = match (process_summary false fs host filename m0).2 with
    | Ret true => Some (stored (state_of fs host filename))
    | _ => m0 !! model_name_of filename
    end →
  (process_summary false fs host filename m0).2 = Ret true
  ∨ Skipping (model_name_of filename)
      ∈ (process_summary false fs host filename m0).1 →
  process_summary false fs host2 filename m1
  = ([Skipping (model_name_of filename)], Ret false).
Proof.
  intros Hentry [Hbuilt|Hskipped]; apply process_summary_skip.
  - rewrite Hbuilt in Hentry.
    rewrite (needs_update_against_stored _ _ (state_of fs host filename));
      [done | apply animations_gathered_NoDup | done..].
  - apply skipping_printed in Hskipped.
    rewrite (process_summary_skip _ _ _ _ _ Hskipped) in Hentry. simpl in Hentry.
    rewrite (needs_update_local _ _ _ m1 m0 Hentry).
    by rewrite (needs_update_same_inputs _ _ _ (state_of fs host filename)).
Qed.

(** With the same answers from Blender, a model whose call returned in the
    first run is skipped or fails again: its later call returns [False]. *)
Lemma second_call_returns_false fs host host2 filename
    (m0 m1 : gmap string Entry) b :
  engine host2 = engine host →
  m1 !! model_name_of filename
  = match (process_summary false fs host filename m0).2 with
    | Ret true => Some (stored (state_of fs host filename))
    | _ => m0 !! model_name_of filename
    end →
  (process_summary false fs host filename m0).2 = Ret b →
  (process_summary false fs host2 filename m1).2 = Ret false.
Proof.
  intros Hengine Hentry Hret.
  destruct b.
  { by rewrite (second_call_skips fs host host2 filename m0 m1 Hentry);
      [|left]. }
  rewrite Hret in Hentry.
  assert (Hcheck : needs_update false (model_name_of filename)
                     (state_of fs host2 filename) m1
                   = needs_update false (model_name_of filename)
                       (state_of fs host filename) m0).
  { rewrite (needs_update_local _ _ _ m1 m0 Hentry).
    by apply needs_update_same_inputs. }
  unfold process_summary in *. rewrite Hcheck.
  destruct (needs_update false (model_name_of filename)
              (state_of fs host filename) m0) as [lines [|]]; [|done].
  simpl in *. unfold build_summary in *. rewrite Hengine. exact Hret.
Qed.

Lemma loaded_saved w : manifest (loaded (saved w)) = manifest w.
Proof. reflexivity. Qed.

Lemma loaded_same_file w w' :
  build_log_file w' = build_log_file w →
  manifest (loaded w') = manifest (loaded w).
Proof. intros Hlog. unfold loaded. simpl. by rewrite Hlog. Qed.

(** What a first run that reaches its end leaves for the next one to load:
    for every model file, the gathered state if its call returned [True],
    and the entry that was loaded otherwise. *)
Lemma first_run_entries fs host w f :
  NoDup (model_name_of <$> model_files fs) →
  result (run_batch false fs host w) = Ret tt →
  f ∈ model_files fs →
  (∃ b, (process_summary false fs host f (manifest (loaded w))).2 = Ret b)
  ∧ final_clean_scene_raises host = None
  ∧ manifest (loaded (world (run_batch false fs host w))) !! model_name_of f
    = match (process_summary false fs host f (manifest (loaded w))).2 with
      | Ret true => Some (stored (state_of fs host f))
      | _ => manifest (loaded w) !! model_name_of f
      end.
Proof.
  intros Hnd Hend Hf. rewrite run_batch_run in *.
  destruct (source_dir fs) as [entries|] eqn:Hdir.
  2: { unfold model_files in Hf. rewrite Hdir in Hf. by apply elem_of_nil in Hf. }
  destruct (model_files fs) as [|f0 rest] eqn:Hfiles.
  { by apply elem_of_nil in Hf. }
  cbn zeta in *.
  destruct (process_all_run false fs host (f0 :: rest) false (loaded w))
    as (Hlog & _ & Hflag).
  destruct (result (process_all false fs host (f0 :: rest) false (loaded w)))
    as [updates_made|e] eqn:Hloop; [|done].
  destruct (final_clean_scene_raises host) as [e|]; [done|].
  destruct (process_all_completed false fs host (f0 :: rest) false (loaded w)
              updates_made f Hnd Hloop Hf) as [(c & Hin & b & Hret) Hentry].
  destruct (history_calls false fs host (f0 :: rest) (loaded w) f c Hnd Hin)
    as [_ Hsummary].
  assert (Hb : (process_summary false fs host f (manifest (loaded w))).2 = Ret b).
  { rewrite <- Hsummary. exact Hret. }
  split; [by exists b|]. split; [done|].
  specialize (Hflag updates_made eq_refl). rewrite orb_false_l in Hflag.
  destruct updates_made; cbn [world].
  - rewrite loaded_saved. exact Hentry.
  - rewrite (loaded_same_file w) by exact Hlog.
    symmetry in Hflag. rewrite any_built_false in Hflag.
    rewrite Hb. destruct b; [|done].
    exfalso. by apply (Hflag f c Hin).
Qed.

(** C9, amended.  The force flag is off and no two model files have the same
    name up to the extension.  After a batch that ran to its end, take a
    second batch over the same files.  Whatever Blender does in it, every
    call it makes for a model whose first call returned [True] or was
    skipped is a skip.  If moreover Blender answers in the second batch as
    it did in the first, the second batch runs to its end, it calls
    [process_model] for every model file, every model whose first call
    returned [True] or was skipped is skipped, no call returns [True] and
    the manifest file is not written. *)
Theorem second_run_skips (fs : FS) (host host2 : Host) (w : World) :
  NoDup (model_name_of <$> model_files fs) →
  result (run_batch false fs host w) = Ret tt →
  (∀ f c1 c2,
     (f, c1) ∈ batch_history false fs host w →
     (f, c2) ∈ batch_history false fs host2
                 (world (run_batch false fs host w)) →
     result c1 = Ret true ∨ Skipping (model_name_of f) ∈ printed c1 →
     printed c2 = [Skipping (model_name_of f)] ∧ result c2 = Ret false)
  ∧ (engine host2 = engine host →
     final_clean_scene_raises host2 = final_clean_scene_raises host →
     result (run_batch false fs host2 (world (run_batch false fs host w)))
     = Ret tt
     ∧ (batch_history false fs host2
          (world (run_batch false fs host w))).*1 = model_files fs
     ∧ (∀ f c1,
          (f, c1) ∈ batch_history false fs host w →
          result c1 = Ret true ∨ Skipping (model_name_of f) ∈ printed c1 →
          ∃ c2,
            (f, c2) ∈ batch_history false fs host2
                        (world (run_batch false fs host w))
            ∧ printed c2 = [Skipping (model_name_of f)]
            ∧ result c2 = Ret false)
     ∧ (∀ f c2,
          (f, c2) ∈ batch_history false fs host2
                      (world (run_batch false fs host w)) →
          result c2 = Ret false)
     ∧ saves (world (run_batch false fs host2
                       (world (run_batch false fs host w))))
       = saves (world (run_batch false fs host w))
     ∧ build_log_file (world (run_batch false fs host2
                                (world (run_batch false fs host w))))
       = build_log_file (world (run_batch false fs host w))).
Proof.
  intros Hnd Hend.
  assert (Hany : ∀ f c1 c2,
     (f, c1) ∈ batch_history false fs host w →
     (f, c2) ∈ batch_history false fs host2
                 (world (run_batch false fs host w)) →
     result c1 = Ret true ∨ Skipping (model_name_of f) ∈ printed c1 →
     printed c2 = [Skipping (model_name_of f)] ∧ result c2 = Ret false).
  { intros f c1 c2 Hin1 Hin2 Hfirst. unfold batch_history in *.
    destruct (history_calls _ _ _ _ _ _ _ Hnd Hin1) as [Hf Hc1].
    destruct (history_calls _ _ _ _ _ _ _ Hnd Hin2) as [_ Hc2].
    destruct (first_run_entries fs host w f Hnd Hend Hf) as (_ & _ & Hentry).
    assert (Hsecond := second_call_skips fs host host2 f _ _ Hentry).
    rewrite <- Hc1 in Hsecond. specialize (Hsecond Hfirst).
    rewrite Hsecond in Hc2. by injection Hc2 as -> ->. }
  split; [exact Hany|].
  intros Hengine Hfinal.
  assert (Hcalls : ∀ f, f ∈ model_files fs →
            (process_summary false fs host2 f
               (manifest (loaded (world (run_batch false fs host w))))).2
            = Ret false).
  { intros f Hf.
    destruct (first_run_entries fs host w f Hnd Hend Hf)
      as ((b & Hb) & _ & Hentry).
    by apply (second_call_returns_false fs host host2 f
                (manifest (loaded w)) _ b). }
  destruct (process_all_no_build false fs host2 (model_files fs) false
              (loaded (world (run_batch false fs host w))) Hcalls)
    as [Hloop Hworld].
  assert (Hall : (batch_history false fs host2
                    (world (run_batch false fs host w))).*1
                 = model_files fs).
  { unfold batch_history. by apply history_no_build. }
  assert (Hhistory : ∀ f c2,
            (f, c2) ∈ batch_history false fs host2
                        (world (run_batch false fs host w)) →
            result c2 = Ret false).
  { intros f c2 Hin. unfold batch_history in Hin.
    destruct (history_calls _ _ _ _ _ _ _ Hnd Hin) as [Hf Hc2].
    specialize (Hcalls f Hf). rewrite <- Hc2 in Hcalls. exact Hcalls. }
  assert (Hskipped : ∀ f c1,
            (f, c1) ∈ batch_history false fs host w →
            result c1 = Ret true ∨ Skipping (model_name_of f) ∈ printed c1 →
            ∃ c2,
              (f, c2) ∈ batch_history false fs host2
                          (world (run_batch false fs host w))
              ∧ printed c2 = [Skipping (model_name_of f)]
              ∧ result c2 = Ret false).
  { intros f c1 Hin1 Hfirst.
    assert (Hf : f ∈ model_files fs).
    { unfold batch_history in Hin1.
      by destruct (history_calls _ _ _ _ _ _ _ Hnd Hin1). }
    rewrite <- Hall in Hf.
    apply list_elem_of_fmap in Hf as ([f' c2] & -> & Hin2).
    exists c2. split; [exact Hin2|]. by apply (Hany f' c1 c2). }
  assert (Hclean : ∀ f, f ∈ model_files fs →
            final_clean_scene_raises host = None).
  { intros f Hf.
    by destruct (first_run_entries fs host w f Hnd Hend Hf) as (_ & ? & _). }
  split; [|split; [exact Hall|split; [exact Hskipped|split; [exact Hhistory|]]]].
  - rewrite (run_batch_run false fs host2).
    destruct (source_dir fs) as [entries|] eqn:Hdir; [|done].
    destruct (model_files fs) as [|f0 rest] eqn:Hfiles; [done|].
    cbn zeta. rewrite Hloop, Hworld.
    by rewrite Hfinal, (Hclean f0) by left.
  - rewrite (run_batch_run false fs host2).
    destruct (source_dir fs) as [entries|] eqn:Hdir; [|done].
    destruct (model_files fs) as [|f0 rest] eqn:Hfiles; [done|].
    cbn zeta. rewrite Hloop, Hworld.
    by rewrite Hfinal, (Hclean f0) by left.
Qed.

(** C9, refuted as stated: [leib.fbx] and [leib.glb] share the manifest key
    [leib].  Both are built in the first run, each overwriting the entry of
    the other, and both are built again in a second run over the unchanged
    file system. *)
Lemma same_stem_rebuilt_every_run :
  result (run_batch false fs_same_stem host_ok fresh_world) = Ret tt
  ∧ (λ fc, (fc.1, result fc.2))
      <$> batch_history false fs_same_stem host_ok fresh_world
    = [("leib.fbx", Ret true); ("leib.glb", Ret true)]
  ∧ (λ fc, (fc.1, result fc.2))
      <$> batch_history false fs_same_stem host_ok
            (world (run_batch false fs_same_stem host_ok fresh_world))
    = [("leib.fbx", Ret true); ("leib.glb", Ret true)]
  ∧ printed (run_batch false fs_same_stem host_ok
               (world (run_batch false fs_same_stem host_ok fresh_world)))
    = [StartPipeline;
       SourceModelChanged; Building "leib"; Added "walk"; Exported "leib";
       SourceModelChanged; Building "leib"; Added "walk"; Exported "leib";
       ManifestUpdated; Done]
  ∧ saves (world (run_batch false fs_same_stem host_ok
                    (world (run_batch false fs_same_stem host_ok
                              fresh_world)))) = 2.
Proof. by vm_compute. Qed.

(** The three sample characters, built and then visited again a day later. *)
Lemma second_run_skips_witness :
  result (run_batch false fs_male_library host_ok_later
            (world (run_batch false fs_male_library host_ok fresh_world)))
  = Ret tt
  ∧ (batch_history false fs_male_library host_ok_later
       (world (run_batch false fs_male_library host_ok fresh_world))).*1
    = model_files fs_male_library
  ∧ (∀ f c1,
       (f, c1) ∈ batch_history false fs_male_library host_ok fresh_world →
       result c1 = Ret true ∨ Skipping (model_name_of f) ∈ printed c1 →
       ∃ c2,
         (f, c2) ∈ batch_history false fs_male_library host_ok_later
                     (world (run_batch false fs_male_library host_ok
                               fresh_world))
         ∧ printed c2 = [Skipping (model_name_of f)]
         ∧ result c2 = Ret false)
  ∧ (∀ f c2,
       (f, c2) ∈ batch_history false fs_male_library host_ok_later
                   (world (run_batch false fs_male_library host_ok
                             fresh_world)) →
       result c2 = Ret false)
  ∧ saves (world (run_batch false fs_male_library host_ok_later
                    (world (run_batch false fs_male_library host_ok
                              fresh_world))))
    = saves (world (run_batch false fs_male_library host_ok fresh_world)).
Proof.
  assert (Hnd : NoDup (model_name_of <$> model_files fs_male_library)).
  { apply (bool_decide_unpack _). by vm_compute. }
  assert (Hend : result (run_batch false fs_male_library host_ok fresh_world)
                 = Ret tt) by (by vm_compute).
  destruct (second_run_skips fs_male_library host_ok host_ok_later fresh_world
              Hnd Hend) as [_ Hsame].
  destruct (Hsame eq_refl eq_refl)
    as (Hend2 & Hall & Hskipped & Hcalls & Hsaves & _).
  split; [exact Hend2|]. split; [exact Hall|]. split; [exact Hskipped|].
  split; [exact Hcalls | exact Hsaves].
Defined.

(** A second batch of which nothing is assumed can be cut short: [leib] has
    no armature in the first run and fails; in the second run the scene
    reset raises for it, and the models built in the first run are not
    reached. *)
Example second_run_cut_short :
  let host := {| engine := λ filename,
                   if decide (filename = "leib.fbx") then blender_no_armature
                   else blender_ok;
                 clock := λ _, "2024-05-01 10:00:00";
                 final_clean_scene_raises := None |} in
  let host2 := {| engine := λ _,
                    {| clean_scene_raises := Some "RuntimeError: no context";
                       import_fbx_raises := None;
                       import_gltf_raises := None;
                       armature_found := true;
                       rig_setup_raises := None;
                       attach_raises := λ _ _ _, None;
                       fix_arms_action := λ target_name _ _, Some target_name;
                       export_raises := None |};
                  clock := λ _, "2024-05-02 10:00:00";
                  final_clean_scene_raises := None |} in
  result (run_batch false fs_male_library host fresh_world) = Ret tt
  ∧ (λ call, (call.1, result call.2))
      <$> batch_history false fs_male_library host fresh_world
    = [("leib.fbx", Ret false); ("katinka.glb", Ret true);
       ("marco.FBX", Ret true)]
  ∧ (λ call, (call.1, result call.2))
      <$> batch_history false fs_male_library host2
            (world (run_batch false fs_male_library host fresh_world))
    = [("leib.fbx", Raise "RuntimeError: no context")].
Proof. by vm_compute. Qed.

Example second_run_prints_skips :
  printed (run_batch false fs_male_library host_ok_later
             (world (run_batch false fs_male_library host_ok fresh_world)))
  = [StartPipeline; Skipping "leib"; Skipping "katinka"; Skipping "marco";
     EverythingUpToDate; Done].
Proof. by vm_compute. Qed.

(** * Further properties *)

(** ** The gathered state *)

Lemma find_animation_file_Some fs base_filename gender p :
  find_animation_file fs base_filename gender = Some p →
  ∃ name, p = InAnimDir name
    ∧ in_library fs name
    ∧ (name = (gender ++ "_" ++ base_filename)%string
       ∨ (gender = "F"
          ∧ ¬ in_library fs (gender ++ "_" ++ base_filename)%string
          ∧ name = ("M_" ++ base_filename)%string)).
Proof.
  unfold find_animation_file.
  destruct (path_exists fs (InAnimDir (gender ++ "_" ++ base_filename)%string))
    eqn:Hfirst.
  - intros [= <-]. eexists. split; [done|]. split; [|by left].
    by apply path_exists_anim.
  - apply path_exists_anim_false in Hfirst.
    case_decide as Hg; [|done].
    destruct (path_exists fs (InAnimDir ("M_" ++ base_filename)%string))
      eqn:Hsecond; [|done].
    intros [= <-]. eexists. split; [done|]. split; [|by right].
    by apply path_exists_anim.
Qed.

Lemma get_file_timestamp_anim fs name t :
  anim_dir fs !! name = Some t →
  get_file_timestamp fs (InAnimDir name) = t.
Proof.
  intros Hname. unfold get_file_timestamp, path_exists. simpl.
  rewrite Hname. by rewrite bool_decide_eq_true_2.
Qed.

Lemma gathered_animation_row fs now filename k a :
  (k, a) ∈ animations (gather_current_state fs now filename) →
  ∃ base_filename p,
    (k, base_filename) ∈ ANIMATION_TARGETS
    ∧ find_animation_file fs base_filename
        (gender_of (config_of (splitext filename).1)) = Some p
    ∧ a = {| file := basename p; mtime := get_file_timestamp fs p |}.
Proof.
  rewrite animations_gathered, list_elem_of_omap.
  intros ([k' base_filename] & Hrow & Hone). unfold resolve_one in Hone.
  simpl in Hone.
  destruct (find_animation_file fs base_filename _) as [p|] eqn:Hfind;
    [|done].
  simpl in Hone. injection Hone as <- <-. by exists base_filename, p.
Qed.

(** Every animation of a gathered state is a file of the animation library,
    recorded with the time stamp the file has: the file of the model's own
    gender for the slot, or, for gender [F] only and when that one is
    missing, the [M] file. *)
Theorem gathered_animations_exist (fs : FS) (now filename k : string)
    (a : AnimInfo) :
  (k, a) ∈ animations (gather_current_state fs now filename) →
  ∃ base_filename,
    (k, base_filename) ∈ ANIMATION_TARGETS
    ∧ anim_dir fs !! file a = Some (mtime a)
    ∧ (file a = (gender_of (config_of (splitext filename).1)
                 ++ "_" ++ base_filename)%string
       ∨ (gender_of (config_of (splitext filename).1) = "F"
          ∧ ¬ in_library fs ("F_" ++ base_filename)%string
          ∧ file a = ("M_" ++ base_filename)%string)).
Proof.
  intros Hin.
  destruct (gathered_animation_row _ _ _ _ _ Hin)
    as (base_filename & p & Hrow & Hfind & ->).
  destruct (find_animation_file_Some _ _ _ _ Hfind)
    as (name & -> & [t Ht] & Hform).
  exists base_filename. split; [done|]. simpl.
  rewrite (get_file_timestamp_anim _ _ _ Ht). split; [done|].
  destruct Hform as [->|(Hg & Hmissing & ->)]; [by left|].
  right. rewrite Hg in *. done.
Qed.

Lemma gathered_animations_exist_witness :
  ∃ base_filename,
    ("walk", base_filename) ∈ ANIMATION_TARGETS
    ∧ anim_dir fs_male_library !! "M_walk.fbx" = Some 5%Z
    ∧ ("M_walk.fbx" = (gender_of (config_of (splitext "katinka.glb").1)
                       ++ "_" ++ base_filename)%string
       ∨ (gender_of (config_of (splitext "katinka.glb").1) = "F"
          ∧ ¬ in_library fs_male_library ("F_" ++ base_filename)%string
          ∧ "M_walk.fbx" = ("M_" ++ base_filename)%string)).
Proof.
  apply (gathered_animations_exist fs_male_library "" "katinka.glb" "walk"
           {| file := "M_walk.fbx"; mtime := 5 |}).
  left.
Defined.

(** The slots of a gathered state are distinct slots of the animation table,
    in the order of the table. *)
Theorem gathered_slots_in_table_order (fs : FS) (now filename : string) :
  (animations (gather_current_state fs now filename)).*1
    `sublist_of` ANIMATION_TARGETS.*1
  ∧ NoDup (animations (gather_current_state fs now filename)).*1
  ∧ (List.length (animations (gather_current_state fs now filename)) ≤ 11)%nat.
Proof.
  assert (Hsub : (animations (gather_current_state fs now filename)).*1
                   `sublist_of` ANIMATION_TARGETS.*1).
  { rewrite animations_gathered. apply omap_resolve_keys. }
  split; [done|]. split; [apply animations_gathered_NoDup|].
  apply sublist_length in Hsub. by rewrite !length_fmap in Hsub.
Qed.

(** The second resolution of line 253 finds the file that phase 1 recorded:
    for every animation of a gathered state the slot is a key of the table
    (line 252 cannot raise) and the path handed to Blender is the recorded
    file of the animation library. *)
Theorem reresolution_finds_recorded_file (fs : FS) (now filename k : string)
    (a : AnimInfo) :
  (k, a) ∈ animations (gather_current_state fs now filename) →
  ∃ base_filename,
    dict_get ANIMATION_TARGETS k = Some base_filename
    ∧ find_animation_file fs base_filename
        (gender_of (config (gather_current_state fs now filename)))
      = Some (InAnimDir (file a))
    ∧ path_exists fs (InAnimDir (file a)) = true.
Proof.
  intros Hin.
  destruct (gathered_animation_row _ _ _ _ _ Hin)
    as (base_filename & p & Hrow & Hfind & ->).
  destruct (find_animation_file_Some _ _ _ _ Hfind)
    as (name & -> & Hlib & _).
  exists base_filename. split; [|split].
  - by apply dict_get_elem; [apply ANIMATION_TARGETS_NoDup|].
  - exact Hfind.
  - by apply path_exists_anim.
Qed.

Lemma reresolution_finds_recorded_file_witness :
  ∃ base_filename,
    dict_get ANIMATION_TARGETS "cast" = Some base_filename
    ∧ find_animation_file fs_male_library base_filename
        (gender_of (config (gather_current_state fs_male_library ""
                              "katinka.glb")))
      = Some (InAnimDir "M_cast.fbx")
    ∧ path_exists fs_male_library (InAnimDir "M_cast.fbx") = true.
Proof.
  apply (reresolution_finds_recorded_file fs_male_library "" "katinka.glb"
           "cast" {| file := "M_cast.fbx"; mtime := 7 |}).
  right. left.
Defined.

(** ** One call of [process_model] *)

(** An up-to-date model is skipped before Blender is touched: the call
    prints the skip line only, returns [False] and leaves the world as it
    was, whatever Blender would answer. *)
Theorem skipped_without_blender (force : bool) (fs : FS) (host host' : Host)
    (filename : string) (w : World) :
  (needs_update force (model_name_of filename) (state_of fs host filename)
     (manifest w)).2 = false →
  clock host' filename = clock host filename →
  process_model force fs host filename w
  = mkOut [Skipping (model_name_of filename)] (Ret false) w
  ∧ process_model force fs host' filename w
    = process_model force fs host filename w.
Proof.
  intros Hfresh Hclock.
  assert (Hskip : ∀ h, clock h filename = clock host filename →
            process_model force fs h filename w
            = mkOut [Skipping (model_name_of filename)] (Ret false) w).
  { intros h Hh. rewrite process_model_run.
    assert (Hstate : state_of fs h filename = state_of fs host filename)
      by (unfold state_of; by rewrite Hh).
    rewrite process_summary_skip by (by rewrite Hstate). reflexivity. }
  split; [by apply Hskip|]. by rewrite !Hskip.
Qed.

Lemma skipped_without_blender_witness :
  process_model false fs_male_library host_ok_later "katinka.glb"
    (world (run_batch false fs_male_library host_ok fresh_world))
  = mkOut [Skipping "katinka"] (Ret false)
      (world (run_batch false fs_male_library host_ok fresh_world)).
Proof.
  refine (proj1 (skipped_without_blender false fs_male_library host_ok_later
                   host_ok_later "katinka.glb" _ _ eq_refl)).
  by vm_compute.
Defined.

Lemma returns_true_steps (force : bool) (fs : FS) (host : Host)
    (filename : string) (w : World) :
  result (process_model force fs host filename w) = Ret true
  ↔ (needs_update force (model_name_of filename) (state_of fs host filename)
       (manifest w)).2 = true
    ∧ clean_scene_raises (engine host filename) = None
    ∧ import_answer (engine host filename) filename = None
    ∧ armature_found (engine host filename) = true
    ∧ rig_setup_raises (engine host filename) = None
    ∧ raw_assets_dir fs = true
    ∧ export_raises (engine host filename) = None.
Proof.
  rewrite process_model_run. unfold process_summary, build_summary.
  cbn zeta. cbn [result].
  destruct (needs_update force (model_name_of filename)
              (state_of fs host filename) (manifest w)) as [lines [|]];
    cbn [fst snd negb]; [|by split; [|intros (? & _)]].
  destruct (clean_scene_raises _); cbn [snd];
    [by split; [|intros (_ & ? & _)]|].
  destruct (import_answer _ _); cbn [snd];
    [by split; [|intros (_ & _ & ? & _)]|].
  destruct (armature_found _); cbn [snd negb];
    [|by split; [|intros (_ & _ & _ & ? & _)]].
  destruct (rig_setup_raises _); cbn [snd];
    [by split; [|intros (_ & _ & _ & _ & ? & _)]|].
  destruct (raw_assets_dir fs); cbn [snd negb];
    [|by split; [|intros (_ & _ & _ & _ & _ & ? & _)]].
  destruct (export_raises _); cbn [snd];
    [by split; [|intros (_ & _ & _ & _ & _ & _ & ?)]|].
  done.
Qed.

(** A call returns [True] exactly when the model is stale and every step of
    the build goes through: the scene reset, the import and the rig set-up
    return, an armature is found, the export directory exists and the export
    returns. *)
Theorem process_model_true_iff (force : bool) (fs : FS) (host : Host)
    (filename : string) (w : World) :
  result (process_model force fs host filename w) = Ret true
  ↔ (needs_update force (model_name_of filename) (state_of fs host filename)
       (manifest w)).2 = true
    ∧ clean_scene_raises (engine host filename) = None
    ∧ import_answer (engine host filename) filename = None
    ∧ armature_found (engine host filename) = true
    ∧ rig_setup_raises (engine host filename) = None
    ∧ raw_assets_dir fs = true
    ∧ export_raises (engine host filename) = None.
Proof. apply returns_true_steps. Qed.

(** A call is left by an exception exactly in three cases, all for a stale
    model: the scene reset raises; or the rig set-up raises after a
    successful import that gave an armature; or the export raises after
    that, with the export directory present.  No other step can make the
    call raise. *)
Theorem process_model_raises_iff (force : bool) (fs : FS) (host : Host)
    (filename : string) (w : World) (e : string) :
  result (process_model force fs host filename w) = Raise e
  ↔ (needs_update force (model_name_of filename) (state_of fs host filename)
       (manifest w)).2 = true
    ∧ (clean_scene_raises (engine host filename) = Some e
       ∨ (clean_scene_raises (engine host filename) = None
          ∧ import_answer (engine host filename) filename = None
          ∧ armature_found (engine host filename) = true
          ∧ (rig_setup_raises (engine host filename) = Some e
             ∨ (rig_setup_raises (engine host filename) = None
                ∧ raw_assets_dir fs = true
                ∧ export_raises (engine host filename) = Some e)))).
Proof.
  rewrite process_model_run. unfold process_summary, build_summary.
  cbn zeta. cbn [result].
  destruct (needs_update force (model_name_of filename)
              (state_of fs host filename) (manifest w)) as [lines [|]];
    cbn [fst snd negb]; [|by split; [|intros (? & _)]].
  destruct (clean_scene_raises _) as [e0|]; cbn [snd].
  { split.
    - intros [= ->]. split; [done | by left].
    - intros (_ & [[= ->]|(? & _)]); done. }
  destruct (import_answer _ _); cbn [snd].
  { split; [done|]. intros (_ & [?|(_ & ? & _)]); done. }
  destruct (armature_found _); cbn [snd negb].
  2: { split; [done|]. intros (_ & [?|(_ & _ & ? & _)]); done. }
  destruct (rig_setup_raises _) as [e0|]; cbn [snd].
  { split.
    - intros [= ->]. split; [done|]. right. repeat split; by left.
    - intros (_ & [?|(_ & _ & _ & [[= ->]|(? & _)])]); done. }
  destruct (raw_assets_dir fs); cbn [snd negb].
  2: { split; [done|].
       intros (_ & [?|(_ & _ & _ & [?|(_ & ? & _)])]); done. }
  destruct (export_raises _) as [e0|]; cbn [snd].
  - split.
    + intros [= ->]. split; [done|]. right. repeat split. by right.
    + intros (_ & [?|(_ & _ & _ & [?|(_ & _ & [= ->])])]); done.
  - split; [done|]. intros (_ & [?|(_ & _ & _ & [?|(_ & _ & ?)])]); done.
Qed.

(** A call never writes the manifest file, never touches the entry of
    another model and never removes an entry. *)
Theorem process_model_writes_own_entry_only (force : bool) (fs : FS)
    (host : Host) (filename : string) (w : World) :
  build_log_file (world (process_model force fs host filename w))
  = build_log_file w
  ∧ saves (world (process_model force fs host filename w)) = saves w
  ∧ (∀ k, k ≠ model_name_of filename →
       manifest (world (process_model force fs host filename w)) !! k
       = manifest w !! k)
  ∧ (∀ k, is_Some (manifest w !! k) →
       is_Some (manifest (world (process_model force fs host filename w))
                  !! k)).
Proof.
  destruct (process_model_disk force fs host filename w) as [Hlog Hsaves].
  split; [done|]. split; [done|]. split.
  - intros k Hne. by apply process_model_frame.
  - intros k Hk. destruct (decide (k = model_name_of filename)) as [->|Hne].
    + rewrite process_model_own_entry.
      by destruct (process_summary force fs host filename (manifest w)).2
        as [[|]|].
    + by rewrite process_model_frame.
Qed.

(** With [FORCE_REBUILD] set nothing is ever skipped: what a call prints and
    how it ends does not depend on the manifest, and the skip line is never
    printed. *)
Theorem force_rebuild_never_skips (fs : FS) (host : Host) (filename : string)
    (w w' : World) :
  printed (process_model true fs host filename w)
  = printed (process_model true fs host filename w')
  ∧ result (process_model true fs host filename w)
    = result (process_model true fs host filename w')
  ∧ Building (model_name_of filename)
      ∈ printed (process_model true fs host filename w)
  ∧ ∀ n, Skipping n ∉ printed (process_model true fs host filename w).
Proof.
  rewrite !process_model_run. unfold process_summary. cbn zeta.
  cbn [printed result needs_update fst snd negb app].
  split; [done|]. split; [done|]. split.
  - unfold build_summary.
    destruct (clean_scene_raises _); [left|].
    destruct (import_answer _ _); [left|].
    destruct (negb (armature_found _)); [left|].
    destruct (rig_setup_raises _); [left|].
    destruct (negb (raw_assets_dir fs)); [left|].
    destruct (export_raises _); left.
  - intros n. apply build_summary_no_skipping.
Qed.

(** Right after a call that returned [True], the model is up to date: a
    second call for the same file, at any later clock reading and whatever
    Blender would answer, is skipped and changes nothing. *)
Theorem built_then_skipped (fs : FS) (host host2 : Host) (filename : string)
    (w : World) :
  result (process_model false fs host filename w) = Ret true →
  process_model false fs host2 filename
    (world (process_model false fs host filename w))
  = mkOut [Skipping (model_name_of filename)] (Ret false)
      (world (process_model false fs host filename w)).
Proof.
  intros Hbuilt. rewrite (process_model_run false fs host2).
  rewrite process_summary_skip; [reflexivity|].
  rewrite (process_model_committed _ _ _ _ _ Hbuilt).
  rewrite (needs_update_against_stored _ _ (state_of fs host filename));
    [done | apply animations_gathered_NoDup | done.. |].
  apply lookup_insert_eq.
Qed.

Lemma built_then_skipped_witness :
  process_model false fs_same_stem host_ok_later "leib.glb"
    (world (process_model false fs_same_stem host_ok "leib.glb" fresh_world))
  = mkOut [Skipping "leib"] (Ret false)
      (world (process_model false fs_same_stem host_ok "leib.glb" fresh_world)).
Proof.
  apply (built_then_skipped fs_same_stem host_ok host_ok_later "leib.glb"
           fresh_world).
  by vm_compute.
Defined.

(** A build that did not return [True] (it failed or raised) is not masked:
    with the file system unchanged, the model is still stale at the next
    call. *)
Theorem failed_build_stays_stale (force : bool) (fs : FS) (host host2 : Host)
    (filename : string) (w : World) :
  (needs_update force (model_name_of filename) (state_of fs host filename)
     (manifest w)).2 = true →
  result (process_model force fs host filename w) ≠ Ret true →
  (needs_update force (model_name_of filename) (state_of fs host2 filename)
     (manifest (world (process_model force fs host filename w)))).2 = true.
Proof.
  intros Hstale Hfailed.
  rewrite (process_model_kept _ _ _ _ _ Hfailed).
  by rewrite (needs_update_same_inputs _ _ _ (state_of fs host filename)).
Qed.

Lemma failed_build_stays_stale_witness :
  (needs_update false "leib" (state_of fs_male_library host_ok_later "leib.fbx")
     (manifest (world (process_model false fs_male_library host_no_armature
                         "leib.fbx" fresh_world)))).2 = true.
Proof.
  apply (failed_build_stays_stale false fs_male_library host_no_armature
           host_ok_later "leib.fbx" fresh_world).
  - by vm_compute.
  - by vm_compute.
Defined.

(** The importer is chosen by the extension of the file name, whatever its
    case: for two hosts that differ only in how the import operators
    answer, a call ends the same way if the operator for the file's
    extension answers the same ([.fbx] is tried first), and for a name with
    neither extension no import is made at all. *)
Theorem importer_chosen_by_extension (force : bool) (fs : FS)
    (host host' : Host) (filename : string) (w : World) :
  clock host' filename = clock host filename →
  clean_scene_raises (engine host' filename)
  = clean_scene_raises (engine host filename) →
  armature_found (engine host' filename)
  = armature_found (engine host filename) →
  rig_setup_raises (engine host' filename)
  = rig_setup_raises (engine host filename) →
  attach_raises (engine host' filename)
  = attach_raises (engine host filename) →
  fix_arms_action (engine host' filename)
  = fix_arms_action (engine host filename) →
  export_raises (engine host' filename)
  = export_raises (engine host filename) →
  (endswith (lower filename) ".fbx" = true →
   import_fbx_raises (engine host' filename)
   = import_fbx_raises (engine host filename) →
   process_model force fs host' filename w
   = process_model force fs host filename w)
  ∧ (endswith (lower filename) ".fbx" = false →
     endswith (lower filename) ".glb" = true →
     import_gltf_raises (engine host' filename)
     = import_gltf_raises (engine host filename) →
     process_model force fs host' filename w
     = process_model force fs host filename w)
  ∧ (endswith (lower filename) ".fbx" = false →
     endswith (lower filename) ".glb" = false →
     process_model force fs host' filename w
     = process_model force fs host filename w).
Proof.
  intros Hclock Hclean Harm Hrig Hattach Hfix Hexport.
  assert (Hsame : import_answer (engine host' filename) filename
                  = import_answer (engine host filename) filename →
                  process_model force fs host' filename w
                  = process_model force fs host filename w).
  { intros Himport. rewrite !process_model_run.
    assert (Hstate : state_of fs host' filename = state_of fs host filename)
      by (unfold state_of; by rewrite Hclock).
    unfold process_summary, build_summary, attach_lines, fix_arms_lines.
    by rewrite Hstate, Hclean, Harm, Hrig, Hattach, Hfix, Hexport, Himport. }
  unfold import_answer in Hsame.
  split; [|split].
  - intros Hfbx Himport. apply Hsame. by rewrite Hfbx.
  - intros Hfbx Hglb Himport. apply Hsame. by rewrite Hfbx, Hglb.
  - intros Hfbx Hglb. apply Hsame. by rewrite Hfbx, Hglb.
Qed.

(** A Blender whose glTF importer raises builds [marco.FBX] like one whose
    importers both work. *)
Lemma importer_chosen_by_extension_witness :
  import_gltf_raises (engine host_gltf_broken "marco.FBX")
  ≠ import_gltf_raises (engine host_ok "marco.FBX")
  ∧ process_model false fs_male_library host_gltf_broken "marco.FBX"
      fresh_world
    = process_model false fs_male_library host_ok "marco.FBX" fresh_world.
Proof.
  split; [done|].
  refine (proj1 (importer_chosen_by_extension false fs_male_library host_ok
                   host_gltf_broken "marco.FBX" fresh_world
                   eq_refl eq_refl eq_refl eq_refl eq_refl eq_refl eq_refl)
            eq_refl eq_refl).
Defined.

Example broken_gltf_importer_fails_glb :
  result (process_model false fs_male_library host_gltf_broken "katinka.glb"
            fresh_world) = Ret false
  ∧ result (process_model false fs_male_library host_ok "katinka.glb"
              fresh_world) = Ret true.
Proof. by vm_compute. Qed.

(** In a call that returns [True] the animation loop reports every animation
    of the gathered state in order: first the line of [fix_arm_spacing],
    when the configured angle is positive and the imported file has an
    action, then exactly one line saying that the animation was added or
    which error was caught; an animation that fails does not stop the ones
    after it.  The lines are framed by the build line and the export
    line. *)
Theorem build_reports_every_animation (force : bool) (fs : FS) (host : Host)
    (filename : string) (w : World) :
  result (process_model force fs host filename w) = Ret true →
  printed (process_model force fs host filename w)
  = (needs_update force (model_name_of filename) (state_of fs host filename)
       (manifest w)).1
    ++ Building (model_name_of filename)
       :: flat_map
            (attach_report (engine host filename)
               (default 0%Z
                  (extra_arm_angle (config_of (model_name_of filename)))))
            (animations (state_of fs host filename))
    ++ [Exported (model_name_of filename)].
Proof.
  intros Hbuilt.
  pose proof (proj1 (returns_true_steps force fs host filename w) Hbuilt)
    as (Hstale & Hclean & Himport & Harm & Hrig & Hdir & Hexport).
  rewrite process_model_run. unfold process_summary, build_summary.
  rewrite Hstale, Hclean, Himport, Harm, Hrig, Hdir, Hexport.
  cbn [negb fst snd printed]. do 3 f_equal.
  unfold attach_lines, state_of.
  assert (Hall : ∀ k a,
            (k, a) ∈ animations (gather_current_state fs (clock host filename)
                                   filename) →
            ∃ base_filename,
              dict_get ANIMATION_TARGETS k = Some base_filename
              ∧ find_animation_file fs base_filename
                  (gender_of (config_of (model_name_of filename)))
                = Some (InAnimDir (file a))).
  { intros k a Hin.
    destruct (gathered_animation_row _ _ _ _ _ Hin)
      as (base_filename & p & Hrow & Hfind & ->).
    destruct (find_animation_file_Some _ _ _ _ Hfind) as (name & -> & _).
    exists base_filename. split; [|exact Hfind].
    by apply dict_get_elem; [apply ANIMATION_TARGETS_NoDup|]. }
  revert Hall.
  generalize (animations (gather_current_state fs (clock host filename)
                            filename)).
  intros items Hall. induction items as [|[k a] items IH]; [done|].
  destruct (Hall k a ltac:(left)) as (base_filename & Hbase & Hfind).
  cbn [flat_map fst snd]. rewrite Hbase, Hfind.
  rewrite IH by (intros k' a' Hin; apply Hall; by right).
  unfold attach_report at 2, attach_line. cbn [fst snd].
  by destruct (attach_raises _ _ _ _).
Qed.

(** [marco] has an arm angle of 7 degrees: six lines. *)
Lemma build_reports_every_animation_witness :
  printed (process_model false fs_male_library host_ok "marco.FBX"
             fresh_world)
  = [Building "marco";
     FixArms 7 "walk"; Added "walk";
     FixArms 7 "cast"; Added "cast";
     Exported "marco"].
Proof.
  apply (build_reports_every_animation false fs_male_library host_ok
           "marco.FBX" fresh_world).
  by vm_compute.
Defined.

Example build_reports_caught_error :
  printed (process_model false fs_male_library host_walk_fails "katinka.glb"
             fresh_world)
  = [Building "katinka";
     ErrorProcessing "walk" "RuntimeError: import failed";
     Added "cast";
     Exported "katinka"].
Proof. by vm_compute. Qed.

(** ** Entries with missing keys *)

(** A manifest entry that lacks the key [source_mtime] or the key [config]
    never counts as up to date, and one that lacks [animations] is up to
    date only for a state without animations. *)
Theorem incomplete_entry_is_stale (force : bool) (model_name : string)
    (current_state : State) (manifest : gmap string Entry)
    (last_build : Entry) :
  manifest !! model_name = Some last_build →
  last_source_mtime last_build = None
  ∨ last_config last_build = None
  ∨ (last_animations last_build = None ∧ animations current_state ≠ []) →
  (needs_update force model_name current_state manifest).2 = true.
Proof.
  intros Hentry Hmissing. unfold needs_update. destruct force; [done|].
  rewrite Hentry.
  destruct Hmissing as [Hsrc|[Hcfg|[Hanims Hsome]]].
  - rewrite Hsrc. by rewrite decide_True.
  - case_decide; [done|]. rewrite Hcfg. by rewrite decide_True.
  - case_decide; [done|]. case_decide; [done|].
    destruct (animations current_state) as [|[k a] items]; [done|].
    simpl. unfold animations_of. rewrite Hanims. simpl.
    by rewrite lookup_empty.
Qed.

Lemma incomplete_entry_is_stale_witness :
  (needs_update false "leib"
     (gather_current_state fs_no_library "" "leib.fbx")
     {[ "leib" := entry_without_source_mtime ]}).2 = true.
Proof.
  apply (incomplete_entry_is_stale false "leib" _ _ entry_without_source_mtime).
  - apply lookup_singleton_eq.
  - by left.
Defined.

(** ** The batch as a whole *)

Lemma history_files force fs host files w :
  (history force fs host files w).*1 `prefix_of` files
  ∧ ((∃ u, result (process_all force fs host files false w) = Ret u)
     ↔ (history force fs host files w).*1 = files
       ∧ ∀ f c, (f, c) ∈ history force fs host files w → ∃ b, result c = Ret b).
Proof.
  revert w. induction files as [|f rest IH]; intros w.
  { split; [done|]. split; [|by exists false].
    intros _. split; [done|]. intros f c Hin. by apply elem_of_nil in Hin. }
  rewrite history_cons, process_all_cons. cbn zeta.
  destruct (result (process_model force fs host f w)) as [updated|e] eqn:Hcall.
  - destruct (IH (world (process_model force fs host f w))) as [Hpre Hiff].
    split; [by apply prefix_cons|].
    cbn [result fmap list_fmap fst].
    assert (Hflag : ∀ u0 w0,
              (∃ u, result (process_all force fs host rest u0 w0) = Ret u)
              ↔ ∃ u, result (process_all force fs host rest false w0) = Ret u).
    { clear. intros u0 w0. revert u0 w0.
      induction rest as [|f' rest IH]; intros u0 w0.
      - split; intros _; eauto.
      - rewrite !process_all_cons. cbn zeta.
        destruct (result (process_model force fs host f' w0)) as [b|e];
          cbn [result]; [|done].
        rewrite (IH (if b then true else u0)), (IH (if b then true else false)).
        done. }
    rewrite Hflag, Hiff. split.
    + intros [Hfiles Hret]. split; [by rewrite Hfiles|].
      intros f' c Hin. apply elem_of_cons in Hin as [[= -> ->]|Hin];
        [by exists updated | by eapply Hret].
    + intros [[= Hfiles] Hret]. split; [done|].
      intros f' c Hin. eapply Hret. by right.
  - cbn [result fmap list_fmap fst]. split.
    + apply prefix_cons, prefix_nil.
    + split; [by intros [u ?]|]. intros [_ Hret].
      destruct (Hret f (process_model force fs host f w) ltac:(left)) as [b Hb].
      by rewrite Hcall in Hb.
Qed.

Lemma model_files_listed fs f :
  f ∈ model_files fs →
  is_model_file f = true
  ∧ ∃ entries, source_dir fs = Some entries ∧ f ∈ entries.*1.
Proof.
  unfold model_files. destruct (source_dir fs) as [entries|];
    [|by intros ?%elem_of_nil].
  rewrite list_elem_of_filter. intros [Hmodel Hin]. eauto.
Qed.

(** The batch processes model files only, in the order of the directory
    listing and each at most once per listing entry: the files processed are
    a prefix of the listed names with extension [.fbx] or [.glb] (in any
    case), and all of them when the batch runs to its end. *)
Theorem batch_processes_model_files_in_order (force : bool) (fs : FS)
    (host : Host) (w : World) :
  (batch_history force fs host w).*1 `prefix_of` model_files fs
  ∧ (∀ f, f ∈ (batch_history force fs host w).*1 →
       is_model_file f = true
       ∧ ∃ entries, source_dir fs = Some entries ∧ f ∈ entries.*1)
  ∧ (result (run_batch force fs host w) = Ret tt →
     (batch_history force fs host w).*1 = model_files fs).
Proof.
  unfold batch_history.
  destruct (history_files force fs host (model_files fs) (loaded w))
    as [Hprefix Hiff].
  split; [done|]. split.
  - intros f Hf. apply model_files_listed.
    destruct Hprefix as [rest ->]. apply elem_of_app. by left.
  - rewrite run_batch_run.
    destruct (source_dir fs) as [entries|] eqn:Hdir.
    2: { intros _. unfold model_files. by rewrite Hdir. }
    destruct (model_files fs) as [|f rest] eqn:Hfiles; [done|].
    cbn zeta.
    destruct (result (process_all force fs host (f :: rest) false (loaded w)))
      as [u|e] eqn:Hloop; [|done].
    intros _. apply Hiff. by exists u.
Qed.

(** With no model directory, or no model file in it, the batch does nothing:
    Blender is not called (not even for the last scene reset), the manifest
    file is not written, and the batch returns after two lines of output. *)
Theorem nothing_to_process (force : bool) (fs : FS) (host : Host) (w : World) :
  model_files fs = [] →
  result (run_batch force fs host w) = Ret tt
  ∧ printed (run_batch force fs host w)
    = [StartPipeline;
       if source_dir fs is Some _ then NoModelsFound else SourceDirNotFound]
  ∧ build_log_file (world (run_batch force fs host w)) = build_log_file w
  ∧ saves (world (run_batch force fs host w)) = saves w
  ∧ batch_history force fs host w = [].
Proof.
  intros Hnone. unfold batch_history. rewrite run_batch_run, Hnone.
  by destruct (source_dir fs).
Qed.

Lemma nothing_to_process_witness :
  printed (run_batch false
             {| source_dir := Some [("notes.txt", 1%Z); ("leib.blend", 2%Z)];
                anim_dir := ∅; raw_assets_dir := true |}
             host_katinka_export_fails fresh_world)
  = [StartPipeline; NoModelsFound].
Proof.
  refine (proj1 (proj2 (nothing_to_process false _ host_katinka_export_fails
                          fresh_world _))).
  reflexivity.
Defined.

Lemma process_all_unbuilt force fs host files u w u' :
  result (process_all force fs host files u w) = Ret u' →
  any_built (history force fs host files w) = false →
  world (process_all force fs host files u w) = w.
Proof.
  revert u w. induction files as [|f rest IH]; intros u w Hend Hnone; [done|].
  rewrite process_all_cons in *. rewrite history_cons in Hnone.
  cbn zeta in *. unfold any_built in Hnone. cbn [existsb snd] in Hnone.
  apply orb_false_iff in Hnone as [Hcall Hrest]. unfold returned_true in Hcall.
  destruct (result (process_model force fs host f w)) as [updated|e] eqn:Hres;
    cbn [result world] in *; [|done].
  assert (Hkept : world (process_model force fs host f w) = w).
  { apply process_model_kept. rewrite Hres. by destruct updated. }
  rewrite Hkept in *. by eapply IH.
Qed.

Lemma run_batch_manifest force fs host w :
  ∃ u, manifest (world (run_batch force fs host w))
       = manifest (world (process_all force fs host (model_files fs) u
                            (loaded w))).
Proof.
  rewrite run_batch_run.
  destruct (source_dir fs) as [entries|] eqn:Hdir.
  2: { exists false. unfold model_files. by rewrite Hdir. }
  destruct (model_files fs) as [|f rest] eqn:Hfiles; [by exists false|].
  exists false. cbn zeta.
  destruct (result (process_all force fs host (f :: rest) false (loaded w)))
    as [updated|e]; [|done].
  destruct (final_clean_scene_raises host); [done|].
  by destruct updated.
Qed.

(** A batch that runs to its end leaves in the manifest file exactly the
    dictionary it ends with, so the next run starts from it; a batch cut
    short by an exception leaves the file as it found it, and the entries it
    had set in the dictionary are lost. *)
Theorem manifest_file_follows_dictionary (force : bool) (fs : FS)
    (host : Host) (w : World) :
  (result (run_batch force fs host w) = Ret tt →
   manifest (loaded (world (run_batch force fs host w)))
   = manifest (world (run_batch force fs host w)))
  ∧ (∀ e, result (run_batch force fs host w) = Raise e →
       build_log_file (world (run_batch force fs host w)) = build_log_file w
       ∧ saves (world (run_batch force fs host w)) = saves w
       ∧ manifest (loaded (world (run_batch force fs host w)))
         = manifest (loaded w)).
Proof.
  rewrite run_batch_run.
  destruct (process_all_run force fs host (model_files fs) false (loaded w))
    as (Hlog & Hsaves & Hflag).
  simpl in Hlog, Hsaves.
  destruct (source_dir fs) as [entries|] eqn:Hdir; [|done].
  destruct (model_files fs) as [|f rest] eqn:Hfiles; [done|].
  cbn zeta.
  destruct (result (process_all force fs host (f :: rest) false (loaded w)))
    as [updated|e] eqn:Hloop; cbn [result world].
  2: { split; [done|]. intros e' _. split; [done|]. split; [done|].
       by apply loaded_same_file. }
  destruct (final_clean_scene_raises host) as [e|]; cbn [result world].
  { split; [done|]. intros e' _. split; [done|]. split; [done|].
    by apply loaded_same_file. }
  specialize (Hflag updated eq_refl). rewrite orb_false_l in Hflag.
  destruct updated; cbn [result world]; (split; [intros _ | done]).
  - reflexivity.
  - rewrite (process_all_unbuilt _ _ _ _ _ _ _ Hloop) by done.
    reflexivity.
Qed.

Lemma process_all_keeps_entries force fs host files u w k :
  is_Some (manifest w !! k) →
  is_Some (manifest (world (process_all force fs host files u w)) !! k).
Proof.
  revert u w. induction files as [|f rest IH]; intros u w Hk; [done|].
  rewrite process_all_cons. cbn zeta.
  assert (Hstep : is_Some (manifest (world (process_model force fs host f w))
                             !! k)).
  { destruct (decide (k = model_name_of f)) as [->|Hne].
    - rewrite process_model_own_entry.
      by destruct (process_summary force fs host f (manifest w)).2 as [[|]|].
    - by rewrite process_model_frame. }
  destruct (result (process_model force fs host f w)); cbn [world];
    [by apply IH | done].
Qed.

(** A batch never removes a manifest entry, and the entry of a name that is
    no model file of the directory (a model that was deleted or renamed)
    stays exactly as it was loaded. *)
Theorem entries_are_never_removed (force : bool) (fs : FS) (host : Host)
    (w : World) (k : string) :
  (is_Some (manifest (loaded w) !! k) →
   is_Some (manifest (world (run_batch force fs host w)) !! k))
  ∧ (k ∉ model_name_of <$> model_files fs →
     manifest (world (run_batch force fs host w)) !! k
     = manifest (loaded w) !! k).
Proof.
  destruct (run_batch_manifest force fs host w) as [u ->]. split.
  - apply process_all_keeps_entries.
  - apply process_all_frame.
Qed.

Lemma build_summary_building fs host filename model_name config gender
    current_state :
  Building model_name
    ∈ (build_summary fs host filename model_name config gender
         current_state).1.
Proof.
  unfold build_summary.
  destruct (clean_scene_raises _); [left|].
  destruct (import_answer _ _); [left|].
  destruct (negb (armature_found _)); [left|].
  destruct (rig_setup_raises _); [left|].
  destruct (negb (raw_assets_dir fs)); [left|].
  destruct (export_raises _); left.
Qed.

(** When the manifest file is missing or unreadable, every model is built:
    with distinct model names, no call of the batch is skipped. *)
Theorem without_manifest_everything_is_built (force : bool) (fs : FS)
    (host : Host) (w : World) (f : string) (c : Out bool) :
  (∀ data, build_log_file w ≠ LogFileWith data) →
  NoDup (model_name_of <$> model_files fs) →
  (f, c) ∈ batch_history force fs host w →
  Building (model_name_of f) ∈ printed c
  ∧ (∀ n, Skipping n ∉ printed c)
  ∧ (printed c, result c)
    = build_summary fs host f (model_name_of f)
        (config_of (model_name_of f))
        (gender_of (config_of (model_name_of f))) (state_of fs host f).
Proof.
  intros Hfile Hnd Hin. unfold batch_history in Hin.
  destruct (history_calls _ _ _ _ _ _ _ Hnd Hin) as [_ Hc].
  assert (Hempty : manifest (loaded w) = ∅).
  { unfold loaded. simpl. destruct (build_log_file w) as [| |data]; try done.
    by destruct (Hfile data). }
  rewrite Hempty in Hc. unfold process_summary in Hc.
  assert (Hstale : needs_update force (model_name_of f) (state_of fs host f) ∅
                   = ([], true)).
  { unfold needs_update. destruct force; [done|]. by rewrite lookup_empty. }
  rewrite Hstale in Hc. cbn [fst snd negb app] in Hc.
  assert (Hprinted : printed c
            = (build_summary fs host f (model_name_of f)
                 (config_of (model_name_of f))
                 (gender_of (config_of (model_name_of f)))
                 (state_of fs host f)).1) by (by injection Hc).
  split; [|split].
  - rewrite Hprinted. apply build_summary_building.
  - intros n. rewrite Hprinted. apply build_summary_no_skipping.
  - rewrite Hc. by destruct (build_summary _ _ _ _ _ _ _).
Qed.

Lemma without_manifest_everything_is_built_witness :
  Building "marco"
    ∈ printed (process_model false fs_male_library host_ok "marco.FBX"
                 (world (process_all false fs_male_library host_ok
                           ["leib.fbx"; "katinka.glb"] false
                           (loaded fresh_world)))).
Proof.
  refine (proj1 (without_manifest_everything_is_built false fs_male_library
                   host_ok fresh_world "marco.FBX" _ _ _ _)).
  - done.
  - apply (bool_decide_unpack _). by vm_compute.
  - unfold batch_history. right. right. left.
Defined.

(** ** Change detection end to end *)

Lemma stored_animations_get (d : list (string * AnimInfo)) k :
  NoDup d.*1 →
  stored_animations d !! k = stored_anim <$> dict_get d k.
Proof.
  intros Hnd. destruct (dict_get d k) as [a|] eqn:Hget; simpl.
  - apply stored_animations_lookup; [done|]. by apply dict_get_Some_elem.
  - apply dict_get_None in Hget. unfold stored_animations.
    rewrite stored_animations_fold_fresh by done. apply lookup_empty.
Qed.

Lemma slot_stale_against_stored (old : State) k a :
  NoDup (animations old).*1 →
  slot_stale (stored old) k a
  ↔ ∀ a', (k, a') ∈ animations old → mtime a' ≠ mtime a.
Proof.
  intros Hnd. unfold slot_stale, animations_of. simpl.
  rewrite stored_animations_get by done.
  destruct (dict_get (animations old) k) as [b|] eqn:Hget; simpl.
  - apply dict_get_Some_elem in Hget as Hin. split.
    + intros [?|(x & [= <-] & Hne)]; [done|]. simpl in Hne.
      intros a' Hin'. rewrite (dict_get_elem _ _ _ Hnd Hin') in Hget.
      injection Hget as ->. congruence.
    + intros Hall. right. exists (stored_anim b). split; [done|]. simpl.
      specialize (Hall b Hin). congruence.
  - apply dict_get_None in Hget. split; [|by left].
    intros _ a' Hin. exfalso. apply Hget, list_elem_of_fmap. by exists (k, a').
Qed.

(** After a successful build under one file system, a later call for the
    same file under another one rebuilds the model exactly when the time
    stamp of the source file has changed, or some animation that resolves
    now was not resolved then or had another time stamp then.  Nothing else
    (a removed animation, a renamed file with the old time stamp, the build
    date) triggers a rebuild. *)
Theorem rebuilt_iff_inputs_changed (fs_then fs_now : FS)
    (date_then date_now filename : string) (manifest : gmap string Entry) :
  manifest !! model_name_of filename
  = Some (stored (gather_current_state fs_then date_then filename)) →
  (needs_update false (model_name_of filename)
     (gather_current_state fs_now date_now filename) manifest).2 = true
  ↔ get_file_timestamp fs_now (InSourceDir filename)
    ≠ get_file_timestamp fs_then (InSourceDir filename)
    ∨ ∃ k a, (k, a) ∈ animations (gather_current_state fs_now date_now filename)
        ∧ ∀ a', (k, a') ∈ animations
                             (gather_current_state fs_then date_then filename) →
                mtime a' ≠ mtime a.
Proof.
  intros Hentry. unfold needs_update. rewrite Hentry.
  cbn [stored last_source_mtime last_config].
  change (source_mtime (gather_current_state fs_now date_now filename))
    with (get_file_timestamp fs_now (InSourceDir filename)).
  change (source_mtime (gather_current_state fs_then date_then filename))
    with (get_file_timestamp fs_then (InSourceDir filename)).
  change (config (gather_current_state fs_now date_now filename))
    with (config (gather_current_state fs_then date_then filename)).
  case_decide as Hsrc.
  { split; [|done]. intros _. left. congruence. }
  rewrite decide_False by (by intros ?).
  rewrite check_animations_stale. split.
  - intros (k & a & Hin & Hstale). right. exists k, a. split; [done|].
    by apply slot_stale_against_stored; [apply animations_gathered_NoDup|].
  - intros [Hne|(k & a & Hin & Hall)].
    + exfalso. apply Hne. by injection Hsrc.
    + exists k, a. split; [done|].
      by apply slot_stale_against_stored; [apply animations_gathered_NoDup|].
Qed.

Lemma rebuilt_iff_inputs_changed_witness :
  (needs_update false "katinka"
     (gather_current_state fs_cast_removed "later" "katinka.glb")
     {[ "katinka" :=
          stored (gather_current_state fs_male_library "earlier"
                    "katinka.glb") ]}).2 = true
  ↔ get_file_timestamp fs_cast_removed (InSourceDir "katinka.glb")
    ≠ get_file_timestamp fs_male_library (InSourceDir "katinka.glb")
    ∨ ∃ k a, (k, a) ∈ animations (gather_current_state fs_cast_removed "later"
                                     "katinka.glb")
        ∧ ∀ a', (k, a') ∈ animations
                             (gather_current_state fs_male_library "earlier"
                                "katinka.glb") →
                mtime a' ≠ mtime a.
Proof.
  apply (rebuilt_iff_inputs_changed fs_male_library fs_cast_removed
           "earlier" "later" "katinka.glb").
  apply lookup_singleton_eq.
Defined.

(** [needs_update] explains itself: it prints at most one line, and it
    prints nothing exactly when it returns [False], or the force flag is
    set, or the model has no entry. *)
Theorem needs_update_prints_the_cause (force : bool) (model_name : string)
    (current_state : State) (manifest : gmap string Entry) :
  (List.length (needs_update force model_name current_state manifest).1 ≤ 1)%nat
  ∧ ((needs_update force model_name current_state manifest).1 = []
     ↔ (needs_update force model_name current_state manifest).2 = false
       ∨ force = true
       ∨ manifest !! model_name = None).
Proof.
  unfold needs_update. destruct force.
  { split; [simpl; lia|]. split; [by auto | done]. }
  destruct (manifest !! model_name) as [last_build|].
  2: { split; [simpl; lia|]. split; [by auto | done]. }
  assert (Hprinted : ∀ l : Line,
            (List.length ([l], true).1 ≤ 1)%nat
            ∧ (([l], true).1 = []
               ↔ ([l], true).2 = false ∨ false = true
                 ∨ Some last_build = None)).
  { intros l. split; [simpl; lia|]. simpl. split; [done|].
    intros [?|[?|?]]; done. }
  case_decide; [apply Hprinted|].
  case_decide; [apply Hprinted|].
  generalize (animations current_state). intros items.
  induction items as [|[k a] items IH].
  { split; [simpl; lia|]. split; [by auto | done]. }
  simpl. destruct (animations_of last_build !! k); [|apply Hprinted].
  case_decide; [apply Hprinted | exact IH].
Qed.

(** ** The arm correction *)

Example fix_arm_spacing_two_frames :
  fix_arm_spacing one_armed_bones "walk" 3 4 7
  = [PrintFixArms 7 "walk";
     FrameSet 3; SetQuaternionMode "LeftArm"; RotateX "LeftArm" 7;
     KeyframeInsert "LeftArm" 3;
     FrameSet 4; SetQuaternionMode "LeftArm"; RotateX "LeftArm" 7;
     KeyframeInsert "LeftArm" 4].
Proof. by vm_compute. Qed.

Lemma rotate_and_key_keyframe pb angle f bone g :
  KeyframeInsert bone g ∈ rotate_and_key pb angle f ↔ pb = Some bone ∧ g = f.
Proof.
  destruct pb as [b|]; simpl.
  - rewrite !elem_of_cons, elem_of_nil. split.
    + intros [?|[?|[[= -> ->]|[]]]]; done.
    + intros [[= ->] ->]. auto.
  - rewrite elem_of_nil. by split; [|intros [? _]].
Qed.

(** [fix_arm_spacing] inserts a key frame for a bone at a frame exactly when
    the angle is not [0], the frame lies between the first and the last
    frame of the action (both included), and the bone is the left or the
    right arm of the rig, where the name with the [mixamorig:] prefix is
    preferred to the plain one.  No other bone and no frame outside the
    action is keyed. *)
Theorem fix_arm_spacing_keyframes (bones : gset string) (action_name : string)
    (frame_start frame_end angle : Z) (bone : string) (f : Z) :
  KeyframeInsert bone f
    ∈ fix_arm_spacing bones action_name frame_start frame_end angle
  ↔ angle ≠ 0%Z
    ∧ (frame_start ≤ f ≤ frame_end)%Z
    ∧ (get_bone bones "mixamorig:LeftArm" "LeftArm" = Some bone
       ∨ get_bone bones "mixamorig:RightArm" "RightArm" = Some bone).
Proof.
  unfold fix_arm_spacing. case_decide as Hangle.
  { rewrite elem_of_nil. by split; [|intros [? _]]. }
  rewrite elem_of_cons, list_elem_of_In, in_flat_map.
  setoid_rewrite <- list_elem_of_In. setoid_rewrite elem_of_seqZ.
  unfold fix_frame. split.
  - intros [?|(g & Hg & Hin)]; [done|].
    rewrite elem_of_cons, elem_of_app, !rotate_and_key_keyframe in Hin.
    destruct Hin as [?|[[Hb ->]|[Hb ->]]]; [done|..];
      (split; [done|]; split; [lia | by auto]).
  - intros (_ & Hf & Hb). right. exists f. split; [lia|].
    rewrite elem_of_cons, elem_of_app, !rotate_and_key_keyframe.
    destruct Hb; auto.
Qed.

Lemma fix_frame_keyframes bones angle f :
  List.length (filter (λ c, is_keyframe c = true) (fix_frame bones angle f))
  = arms_found bones.
Proof.
  unfold fix_frame, arms_found.
  by destruct (get_bone bones "mixamorig:LeftArm" "LeftArm"),
              (get_bone bones "mixamorig:RightArm" "RightArm").
Qed.

(** Each frame of the action gets one key frame per arm found, no more: the
    number of key frames inserted is the number of frames from the first to
    the last, times the number of arms of the rig. *)
Theorem fix_arm_spacing_counts (bones : gset string) (action_name : string)
    (frame_start frame_end angle : Z) :
  angle ≠ 0%Z →
  List.length
    (filter (λ c, is_keyframe c = true)
       (fix_arm_spacing bones action_name frame_start frame_end angle))
  = (Z.to_nat (frame_end + 1 - frame_start) * arms_found bones)%nat.
Proof.
  intros Hangle. unfold fix_arm_spacing. rewrite decide_False by done.
  rewrite filter_cons_False by done.
  rewrite <- (length_seqZ frame_start (frame_end + 1 - frame_start)).
  generalize (seqZ frame_start (frame_end + 1 - frame_start)). intros frames.
  induction frames as [|f frames IH]; [done|].
  cbn [flat_map]. rewrite filter_app, length_app, fix_frame_keyframes, IH.
  simpl. lia.
Qed.

Lemma fix_arm_spacing_counts_witness :
  List.length
    (filter (λ c, is_keyframe c = true)
       (fix_arm_spacing mixamo_bones "walk" 1 30 7))
  = (Z.to_nat (30 + 1 - 1) * arms_found mixamo_bones)%nat.
Proof. apply fix_arm_spacing_counts. done. Defined.

(** The arm correction is applied for a positive configured angle only: for
    an angle of [0] or below, line 265 makes no call at all. *)
Theorem arm_fix_only_for_positive_angle (bones : gset string)
    (action_name : string) (frame_start frame_end extra_angle : Z) :
  fix_arms_if_configured bones action_name frame_start frame_end extra_angle
  = []
  ↔ (extra_angle ≤ 0)%Z.
Proof.
  unfold fix_arms_if_configured, fix_arm_spacing.
  destruct (Z.ltb_spec 0 extra_angle) as [Hpos|Hneg].
  - rewrite decide_False by lia. split; [done | lia].
  - done.
Qed.
